(** * go-speed: the measurement engine, embedded in Rocq

    A shallow embedding of the speed-test backend ([main.go], and the
    metrics-enabled backend that ships next to the CLI help screen) and
    of the terminal client ([cli/main.go]).

    - [Go]      : the pieces of the Go runtime and standard library the code
                  relies on (64-bit [int], [strconv], [make], [time.Duration],
                  [float64]).
    - [Http]    : [http.ResponseWriter], requests, bodies and [io.Copy].
    - [Backend] : [main.go]; the download default is the literal 40 MiB.
    - [Metrics] : the second backend; the download default is the
                  [-default-size] flag.
    - [Cli]     : the bubbletea model, its commands and the event loop.
    - [CliMain] : the client's [View] and [main].
    - [Placeholder], [SimpleClient] : the two earlier clients, one with
                  sleeping commands, one straight-line.

    Log output is left out, and of the Prometheus counters, which the
    backend never reads, only the panic of [Add] on a negative value is
    kept.  Wall-clock readings, the network and the memory of the host
    are inputs: every definition that depends on them takes them as an
    argument. *)

From Stdlib Require Import ZArith List String Ascii Bool Lia Permutation.
From Stdlib Require Import Floats.
From Stdlib.Strings Require Byte.
Import ListNotations.
Set Warnings "-register-all".
Open Scope string_scope.
Open Scope list_scope.
Open Scope Z_scope.

Abbreviation byte := Byte.byte.

(* ================================================================== *)
(** * The Go runtime *)
(* ================================================================== *)

Module Go.

(** [int] and [int64] are both 64 bits wide on the platforms the
    program is built for. *)
Definition minInt : Z := - 2 ^ 63.
Definition maxInt : Z := 2 ^ 63 - 1.

Definition inInt (z : Z) : bool := (minInt <=? z) && (z <=? maxInt).

(** Two's-complement wrap-around of a 64-bit signed result. *)
Definition wrap64 (z : Z) : Z := (z + 2 ^ 63) mod 2 ^ 64 - 2 ^ 63.

(** [make([]byte, n)] on a system that grants the runtime at most [mem]
    bytes: a zeroed slice; the run-time panic "makeslice: len out of
    range" when [n] is negative or beyond the allocator's limit; the
    fatal error "out of memory" when the system does not grant [n]
    bytes. *)
Definition maxAlloc : Z := 2 ^ 48.

Inductive Made :=
  | Slice (s : list byte)
  | PanicLen
  | FatalOOM.

Definition make (mem n : Z) : Made :=
  if (n <? 0) || (maxAlloc <? n) then PanicLen
  else if mem <? n then FatalOOM
  else Slice (repeat Byte.x00 (Z.to_nat n)).

(** [s[:n]] on a slice whose length is at least [n]. *)
Definition slice_to {A} (s : list A) (n : Z) : list A := firstn (Z.to_nat n) s.

Definition len {A} (s : list A) : Z := Z.of_nat (List.length s).

(** ** strconv *)

Definition is_digit (c : ascii) : bool :=
  let n := nat_of_ascii c in ((48 <=? n) && (n <=? 57))%nat.

Definition digit_val (c : ascii) : Z := Z.of_nat (nat_of_ascii c) - 48.

Definition digit_char (d : Z) : ascii := ascii_of_nat (Z.to_nat (48 + d)).

(** The digit loop of [strconv.Atoi] / [ParseUint] in base 10: any
    byte outside '0'..'9' is a syntax error. *)
Fixpoint parse_digits (acc : Z) (s : string) : option Z :=
  match s with
  | EmptyString => Some acc
  | String c s' =>
      if is_digit c then parse_digits (acc * 10 + digit_val c) s' else None
  end.

(** [strconv.Atoi]: an optional sign, then at least one decimal digit;
    a value outside [int] is a range error.  [None] stands for
    [err != nil]. *)
Definition Atoi (s : string) : option Z :=
  match s with
  | EmptyString => None
  | String c rest =>
      let neg := Ascii.eqb c "-" in
      let digits := if neg || Ascii.eqb c "+" then rest else s in
      match digits with
      | EmptyString => None
      | _ =>
          match parse_digits 0 digits with
          | None => None
          | Some un =>
              let n := if neg then - un else un in
              if inInt n then Some n else None
          end
      end
  end.

(** The digit loop of [strconv.FormatInt] in base 10, least significant
    digit first into the front of [acc].  Twenty rounds cover every
    64-bit magnitude. *)
Fixpoint formatBits (fuel : nat) (u : Z) (acc : string) : string :=
  match fuel with
  | O => acc
  | S fuel' =>
      if u <? 10 then String (digit_char u) acc
      else formatBits fuel' (u / 10) (String (digit_char (u mod 10)) acc)
  end.

(** [strconv.Itoa]; [%d] of [fmt.Sprintf] prints the same text. *)
Definition Itoa (i : Z) : string :=
  if i <? 0 then String "-" (formatBits 20 (- i) "") else formatBits 20 i "".

(** ** float64 and time.Duration *)

(** [float64(i)] for an integer [i]: round to nearest, ties to even. *)
Definition float64 (i : Z) : float :=
  SF2Prim (SpecFloat.binary_normalize prec emax i 0 false).

(** [math.Max] and [math.Min], with the special cases in the order of
    package [math]: an infinity of the right sign wins, then a NaN
    operand gives NaN, and of two zeros [Max] prefers [+0] and [Min]
    prefers [-0]. *)
Definition Max (x y : float) : float :=
  if PrimFloat.eqb x infinity || PrimFloat.eqb y infinity then infinity
  else if PrimFloat.is_nan x || PrimFloat.is_nan y then nan
  else if PrimFloat.eqb x 0 && PrimFloat.eqb x y
       then (if PrimFloat.get_sign x then y else x)
  else if PrimFloat.ltb y x then x
  else y.

Definition Min (x y : float) : float :=
  if PrimFloat.eqb x neg_infinity || PrimFloat.eqb y neg_infinity then neg_infinity
  else if PrimFloat.is_nan x || PrimFloat.is_nan y then nan
  else if PrimFloat.eqb x 0 && PrimFloat.eqb x y
       then (if PrimFloat.get_sign x then x else y)
  else if PrimFloat.ltb x y then x
  else y.

Definition Second : Z := 1000000000.

(** [Duration.Seconds]: whole seconds and the nanosecond remainder are
    converted separately, as in package [time]. *)
Definition Seconds (d : Z) : float :=
  let sec := Z.quot d Second in
  let nsec := Z.rem d Second in
  (float64 sec + float64 nsec / 1e9)%float.

End Go.

(* ================================================================== *)
(** * net/http and io *)
(* ================================================================== *)

Module Http.

Definition StatusOK : Z := 200.
Definition StatusBadRequest : Z := 400.
Definition StatusInternalServerError : Z := 500.

(** How a body reader ends: [io.EOF], or some other error. *)
Inductive ReadEnd := EOF | ReadErr.

(** A request or response body: the successive non-empty results of
    [Read], then the way the stream ends. *)
Record Body := { reads : list (list byte); ending : ReadEnd }.

(** [io.Copy(io.Discard, body)]: the number of bytes read before the
    stream ended, and whether it ended in an error. *)
Definition Copy_Discard (b : Body) : Z * bool :=
  (Go.len (List.concat (reads b)),
   match ending b with EOF => false | ReadErr => true end).

(** [url.Values] in the order of the query string. *)
Definition Values := list (string * string).

(** [Values.Get]: the first value of [key], or the empty string. *)
Fixpoint Get (v : Values) (key : string) : string :=
  match v with
  | [] => EmptyString
  | (k, x) :: v' => if String.eqb k key then x else Get v' key
  end.

Record Request := { Query : Values; ReqBody : Body }.

(** A response in the making.  [status] is [None] until the header is
    written; [written] holds the successful [Write] calls, oldest first;
    [wok k] tells whether the [k]-th [Write] (counting attempts from 0)
    reaches the peer. *)
Record ResponseWriter := {
  header : Values;
  status : option Z;
  written : list (list byte);
  attempts : nat;
  wok : nat -> bool
}.

Definition newWriter (ok : nat -> bool) : ResponseWriter :=
  {| header := []; status := None; written := []; attempts := 0; wok := ok |}.

Definition Del (h : Values) (key : string) : Values :=
  filter (fun kv => negb (String.eqb (fst kv) key)) h.

(** [w.Header().Set(key, value)] *)
Definition Set_ (w : ResponseWriter) (key value : string) : ResponseWriter :=
  {| header := Del (header w) key ++ [(key, value)];
     status := status w; written := written w;
     attempts := attempts w; wok := wok w |}.

Definition Del_ (w : ResponseWriter) (key : string) : ResponseWriter :=
  {| header := Del (header w) key;
     status := status w; written := written w;
     attempts := attempts w; wok := wok w |}.

(** [w.WriteHeader(code)]; a second call is ignored. *)
Definition WriteHeader (w : ResponseWriter) (code : Z) : ResponseWriter :=
  {| header := header w;
     status := match status w with None => Some code | s => s end;
     written := written w; attempts := attempts w; wok := wok w |}.

(** [w.Write(p)]: the first write sends the header with status 200 if no
    status was chosen.  The boolean is [err != nil]. *)
Definition Write (w : ResponseWriter) (p : list byte) : ResponseWriter * bool :=
  let w1 := WriteHeader w StatusOK in
  if wok w (attempts w) then
    ({| header := header w1; status := status w1;
        written := written w1 ++ [p];
        attempts := S (attempts w); wok := wok w |}, false)
  else
    ({| header := header w1; status := status w1;
        written := written w1;
        attempts := S (attempts w); wok := wok w |}, true).

(** [http.Error]: plain-text headers, the status line, then the message
    and a newline. *)
Definition Error (w : ResponseWriter) (msg : string) (code : Z) : ResponseWriter :=
  let w := Del_ w "Content-Length" in
  let w := Set_ w "Content-Type" "text/plain; charset=utf-8" in
  let w := Set_ w "X-Content-Type-Options" "nosniff" in
  let w := WriteHeader w code in
  fst (Write w (list_byte_of_string (String.append msg (String "010" EmptyString)))).

(** What the peer has received when the handler is done. *)
Definition bodyBytes (w : ResponseWriter) : list byte := List.concat (written w).

Definition headerOf (w : ResponseWriter) (key : string) : option string :=
  match filter (fun kv => String.eqb (fst kv) key) (header w) with
  | [] => None
  | (_, v) :: _ => Some v
  end.

(** The status the server puts on the wire: a handler that returns
    without writing anything is answered with 200. *)
Definition finalStatus (w : ResponseWriter) : Z :=
  match status w with Some c => c | None => StatusOK end.

End Http.

(* ================================================================== *)
(** * The two backends *)
(* ================================================================== *)

(** The streaming loop of [downloadHandler], the same text in both
    backends:
<<
    for sent < totalSize {
        n := totalSize - sent
        if n > chunkSize { n = chunkSize }
        if _, err := w.Write(payloadChunk[:n]); err != nil { return }
        sent += n
    }
>>
    One unit of [fuel] is one evaluation of the loop condition; [None]
    means the handler is still running when the fuel is spent. *)
Fixpoint streamLoop (fuel : nat) (payloadChunk : list byte)
    (totalSize sent : Z) (w : Http.ResponseWriter) : option Http.ResponseWriter :=
  match fuel with
  | O => None
  | S fuel' =>
      if sent <? totalSize then
        let chunkSize := Go.len payloadChunk in
        let n := totalSize - sent in
        let n := if n >? chunkSize then chunkSize else n in
        let (w', err) := Http.Write w (Go.slice_to payloadChunk n) in
        if err then Some w'
        else streamLoop fuel' payloadChunk totalSize (sent + n) w'
      else Some w
  end.

(** The same loop when the handler goes on after it: the boolean tells
    whether the loop ran to its end ([true]) or the handler returned
    from inside it on a write error ([false]). *)
Fixpoint streamLoopTo (fuel : nat) (payloadChunk : list byte)
    (totalSize sent : Z) (w : Http.ResponseWriter)
    : option (Http.ResponseWriter * bool) :=
  match fuel with
  | O => None
  | S fuel' =>
      if sent <? totalSize then
        let chunkSize := Go.len payloadChunk in
        let n := totalSize - sent in
        let n := if n >? chunkSize then chunkSize else n in
        let (w', err) := Http.Write w (Go.slice_to payloadChunk n) in
        if err then Some (w', false)
        else streamLoopTo fuel' payloadChunk totalSize (sent + n) w'
      else Some (w, true)
  end.

(** How a call of a handler is over: it returns, or it panics and the
    server drops the connection.  The writer shows what had been done
    by then. *)
Inductive Handled :=
  | Returns (w : Http.ResponseWriter)
  | Panics (w : Http.ResponseWriter).

(** [counter.Add(float64(v))] of the Prometheus client panics ("counter
    cannot decrease in value") when the addend is negative, and
    [float64] keeps the sign of [v].  [true] is the panic.  Nothing
    else of the counters is kept: they are never read by the backend. *)
Definition Add_panics (v : Z) : bool := v <? 0.

(** Command-line flags of a backend, after [flag.Parse].  The three
    timeouts only configure [http.Server] and are not listed. *)
Record Flags := {
  port : Z;
  chunk_size : Z;
  random : bool;
  default_size : Z
}.

Definition defaultFlags : Flags :=
  {| port := 8080; chunk_size := 64 * 1024; random := false;
     default_size := 10 * 1024 * 1024 |}.

(** How [main] ends up: a panic or the fatal error "out of memory"
    while the payload is allocated, [log.Fatalf] because the listener
    could not be opened, or a server whose handlers accept requests. *)
Inductive Startup (T : Type) :=
  | Panicked
  | OutOfMemory
  | ListenFailed
  | Serving (s : T).
Arguments Panicked {T}.
Arguments OutOfMemory {T}.
Arguments ListenFailed {T}.
Arguments Serving {T} s.

(** [rand.Read(p)]: every byte of [p] replaced by one drawn from the
    generator [rnd]. *)
Definition rand_Read (rnd : nat -> byte) (p : list byte) : list byte :=
  map rnd (seq 0 (List.length p)).

(** ** main.go *)

Module Backend.

Record Server := { payloadChunk : list byte }.

Definition pingHandler (w : Http.ResponseWriter) : Http.ResponseWriter :=
  let w := Http.WriteHeader w Http.StatusOK in
  fst (Http.Write w (list_byte_of_string "pong")).

Definition downloadHandler (s : Server) (fuel : nat) (r : Http.Request)
    (w : Http.ResponseWriter) : option Http.ResponseWriter :=
  let sizeParam := Http.Get (Http.Query r) "size" in
  let invalid := Some (Http.Error w "invalid size parameter" Http.StatusBadRequest) in
  let serve (totalSize : Z) :=
    let w := Http.Set_ w "Content-Type" "application/octet-stream" in
    let w := Http.Set_ w "Content-Length" (Go.Itoa totalSize) in
    streamLoop fuel (payloadChunk s) totalSize 0 w in
  if String.eqb sizeParam "" then serve (40 * 1024 * 1024)
  else
    match Go.Atoi sizeParam with
    | None => invalid
    | Some totalSize => if totalSize <=? 0 then invalid else serve totalSize
    end.

Definition uploadHandler (r : Http.Request) (w : Http.ResponseWriter)
    : Http.ResponseWriter :=
  let (bytesRead, err) := Http.Copy_Discard (Http.ReqBody r) in
  if err then Http.Error w "error reading body" Http.StatusInternalServerError
  else
    let w := Http.WriteHeader w Http.StatusOK in
    fst (Http.Write w (list_byte_of_string
          (String.append "received " (String.append (Go.Itoa bytesRead) " bytes")))).

(** [main] up to the point where the server accepts requests.  [bind]
    tells whether [ListenAndServe] can open the port, [mem] is the
    memory the system grants.  The flag [default_size] is read and
    logged, nothing else. *)
Definition main (f : Flags) (rnd : nat -> byte) (bind : Z -> bool) (mem : Z)
    : Startup Server :=
  match Go.make mem (chunk_size f) with
  | Go.PanicLen => Panicked
  | Go.FatalOOM => OutOfMemory
  | Go.Slice buf =>
      let buf := if random f then rand_Read rnd buf else buf in
      if bind (port f) then Serving {| payloadChunk := buf |} else ListenFailed
  end.

End Backend.

(** ** The backend with metrics and graceful shutdown *)

Module Metrics.

Record Server := { payloadChunk : list byte; defaultDownloadSize : Z }.

Definition healthHandler (w : Http.ResponseWriter) : Http.ResponseWriter :=
  let w := Http.WriteHeader w Http.StatusOK in
  fst (Http.Write w (list_byte_of_string "ok")).

Definition pingHandler (w : Http.ResponseWriter) : Http.ResponseWriter :=
  let w := Http.WriteHeader w Http.StatusOK in
  fst (Http.Write w (list_byte_of_string "pong")).

(** After the loop this handler adds the size to [downloadByteCnt];
    a return from inside the loop skips that. *)
Definition downloadHandler (s : Server) (fuel : nat) (r : Http.Request)
    (w : Http.ResponseWriter) : option Handled :=
  let sizeParam := Http.Get (Http.Query r) "size" in
  let invalid :=
    Some (Returns (Http.Error w "invalid size parameter" Http.StatusBadRequest)) in
  let serve (totalSize : Z) :=
    let w := Http.Set_ w "Content-Type" "application/octet-stream" in
    let w := Http.Set_ w "Content-Length" (Go.Itoa totalSize) in
    match streamLoopTo fuel (payloadChunk s) totalSize 0 w with
    | None => None
    | Some (w', false) => Some (Returns w')
    | Some (w', true) =>
        if Add_panics totalSize then Some (Panics w') else Some (Returns w')
    end in
  if String.eqb sizeParam "" then serve (defaultDownloadSize s)
  else
    match Go.Atoi sizeParam with
    | None => invalid
    | Some totalSize => if totalSize <=? 0 then invalid else serve totalSize
    end.

Definition uploadHandler (r : Http.Request) (w : Http.ResponseWriter)
    : Http.ResponseWriter :=
  let (bytesRead, err) := Http.Copy_Discard (Http.ReqBody r) in
  if err then Http.Error w "error reading body" Http.StatusInternalServerError
  else
    let w := Http.WriteHeader w Http.StatusOK in
    fst (Http.Write w (list_byte_of_string
          (String.append "received " (String.append (Go.Itoa bytesRead) " bytes")))).

Definition main (f : Flags) (rnd : nat -> byte) (bind : Z -> bool) (mem : Z)
    : Startup Server :=
  let defaultDownloadSize := default_size f in
  match Go.make mem (chunk_size f) with
  | Go.PanicLen => Panicked
  | Go.FatalOOM => OutOfMemory
  | Go.Slice buf =>
      let buf := if random f then rand_Read rnd buf else buf in
      if bind (port f) then
        Serving {| payloadChunk := buf; defaultDownloadSize := defaultDownloadSize |}
      else ListenFailed
  end.

End Metrics.

(* ================================================================== *)
(** * The client: cli/main.go *)
(* ================================================================== *)

Module Cli.

Definition serverBase : string := "http://localhost:8080".
Definition testSize : Z := 100 * 1024 * 1024.
Definition streams : Z := 4.

(** ** The network and the clock, as the client sees them *)

Record Response := { StatusCode : Z; Body : Http.Body }.

(** [(resp, err)] of [httpClient.Get] and [httpClient.Do].  An error is
    a failure of the transport (refused connection, timeout); a
    response with a 4xx or 5xx status is an [Ok]. *)
Inductive Result :=
  | Err (e : string)
  | Ok (resp : Response).

(** What happens in one upload goroutine: [http.NewRequest] fails, or
    the request is sent and [Do] returns. *)
Inductive StreamOutcome :=
  | NewRequestErr
  | Done (r : Result).

Record Sent := { Method : string; URL : string; ContentLength : Z }.

(** Everything outside the program.  [get] and [post] answer the
    requests, the three [..Elapsed] fields are the readings of
    [time.Since(start)], [sched] picks which of the runtime's pending
    commands delivers its message next, and [issued] is the log of the
    requests sent so far, oldest first. *)
Record World := {
  get : string -> Result;
  post : nat -> StreamOutcome;
  pingElapsed : Z;
  downloadElapsed : Z;
  uploadElapsed : Z;
  sched : nat -> nat;
  issued : list Sent
}.

Definition issue (w : World) (rs : list Sent) : World :=
  {| get := get w; post := post w;
     pingElapsed := pingElapsed w; downloadElapsed := downloadElapsed w;
     uploadElapsed := uploadElapsed w; sched := sched w;
     issued := issued w ++ rs |}.

(** ** Messages and commands *)

(** [tea.Msg], with the [tea.Cmd] closures of a batch as functions on
    the world; a command may return a nil message. *)
Inductive Msg :=
  | pingMsg (d : Z)
  | downloadMsg (bytes dur : Z)
  | uploadMsg (bytes dur : Z)
  | progressMsg (phase : string) (done total : Z)
  | errorMsg (err : string)
  | BatchMsg (cmds : list (World -> option Msg * World))
  | QuitMsg.

Definition Cmd := World -> option Msg * World.

Definition Quit : Cmd := fun w => (Some QuitMsg, w).

(** [tea.Batch] of commands none of which is nil. *)
Definition Batch (cmds : list Cmd) : Cmd := fun w => (Some (BatchMsg cmds), w).

(** ** The model *)

(** [progress.Model], reduced to the two fields the driver touches;
    [percent] is the target of the bar. *)
Record ProgressModel := { Width : Z; percent : float }.

Definition progress_New : ProgressModel := {| Width := 40; percent := 0 |}.

(** [SetPercent] keeps the target within [0, 1]. *)
Definition SetPercent (p : ProgressModel) (x : float) : ProgressModel :=
  {| Width := Width p; percent := Go.Max 0 (Go.Min 1 x) |}.

Record model := {
  phase : string;
  latency : Z;
  downloadSpeed : float;
  uploadSpeed : float;
  progress : ProgressModel
}.

Definition initialModel : model :=
  {| phase := "ping"; latency := 0; downloadSpeed := 0; uploadSpeed := 0;
     progress := progress_New |}.

(** ** Commands *)

(** The function handed to [tea.Tick] by [makeProgressCmd]; [done] is
    the value [atomic.LoadInt64(counter)] finds when the tick fires. *)
Definition makeProgressCmd (done total : Z) (phase : string) : Cmd :=
  fun w =>
    if done >=? total then (None, w)
    else (Some (progressMsg phase done total), w).

Definition pingTestCmd : Cmd := fun w =>
  let url := String.append serverBase "/ping" in
  let w' := issue w [{| Method := "GET"; URL := url; ContentLength := 0 |}] in
  match get w url with
  | Err e => (Some (errorMsg e), w')
  | Ok resp => (Some (pingMsg (pingElapsed w)), w')
  end.

Definition downloadTestCmdWith (testSize : Z) : Cmd := fun w =>
  let url := String.append serverBase
               (String.append "/download?size=" (Go.Itoa testSize)) in
  let w' := issue w [{| Method := "GET"; URL := url; ContentLength := 0 |}] in
  match get w url with
  | Err e => (Some (errorMsg e), w')
  | Ok resp =>
      let (n, err) := Http.Copy_Discard (Body resp) in
      if err then (Some (errorMsg "read"), w')
      else (Some (downloadMsg n (downloadElapsed w)), w')
  end.

Definition downloadTestCmd : Cmd := downloadTestCmdWith testSize.

(** One upload goroutine, as a step on the two shared counters
    [(totalBytes, counter)]: both [atomic.AddInt64] calls sit behind
    [err == nil]. *)
Definition uploadStream (segSize : Z) (o : StreamOutcome) (c : Z * Z) : Z * Z :=
  match o with
  | NewRequestErr => c
  | Done (Err _) => c
  | Done (Ok _) => (Go.wrap64 (fst c + segSize), Go.wrap64 (snd c + segSize))
  end.

(** The counters once the goroutines in [order] have finished. *)
Definition joined (segSize : Z) (order : list StreamOutcome) : Z * Z :=
  fold_left (fun c o => uploadStream segSize o c) order (0, 0).

(** The requests the goroutines put on the wire. *)
Definition uploadsSent (segSize : Z) (os : list StreamOutcome) : list Sent :=
  flat_map (fun o =>
      match o with
      | NewRequestErr => []
      | Done _ => [{| Method := "POST"; URL := String.append serverBase "/upload";
                      ContentLength := segSize |}]
      end) os.

(** [uploadTestCmd] for a payload of [testSize] bytes over [streams]
    goroutines. *)
Definition uploadTestCmdWith (testSize streams : Z) : Cmd := fun w =>
  let segSize := Z.quot testSize streams in
  let outcomes := map (post w) (seq 0 (Z.to_nat streams)) in
  let (totalBytes, counter) := joined segSize outcomes in
  let progressCmd := makeProgressCmd counter testSize "upload" in
  let dur := uploadElapsed w in
  Batch [ (fun w0 => (Some (uploadMsg totalBytes dur), w0)); progressCmd ]
        (issue w (uploadsSent segSize outcomes)).

Definition uploadTestCmd : Cmd := uploadTestCmdWith testSize streams.

(** ** Update *)

Definition Update (m : model) (msg : Msg) : model * option Cmd :=
  match msg with
  | pingMsg d =>
      ({| phase := "download"; latency := d;
          downloadSpeed := downloadSpeed m; uploadSpeed := uploadSpeed m;
          progress := progress m |}, Some downloadTestCmd)
  | downloadMsg bytes dur =>
      ({| phase := "upload"; latency := latency m;
          downloadSpeed := (Go.float64 bytes / Go.Seconds dur / Go.float64 (1024 * 1024))%float;
          uploadSpeed := uploadSpeed m;
          progress := progress m |}, Some uploadTestCmd)
  | uploadMsg bytes dur =>
      ({| phase := "done"; latency := latency m;
          downloadSpeed := downloadSpeed m;
          uploadSpeed := (Go.float64 bytes / Go.Seconds dur / Go.float64 (1024 * 1024))%float;
          progress := progress m |}, Some Quit)
  | progressMsg _ done total =>
      (if total >? 0 then
         {| phase := phase m; latency := latency m;
            downloadSpeed := downloadSpeed m; uploadSpeed := uploadSpeed m;
            progress := SetPercent (progress m)
                          (Go.float64 done / Go.float64 total)%float |}
       else m, None)
  | errorMsg _ =>
      ({| phase := "error"; latency := latency m;
          downloadSpeed := downloadSpeed m; uploadSpeed := uploadSpeed m;
          progress := {| Width := 0; percent := percent (progress m) |} |},
       Some Quit)
  | _ => (m, None)
  end.

(** ** The bubbletea event loop *)

(** How a run ends: the program quit, or nothing is pending and the
    loop waits for a message that never comes. *)
Inductive Exit := Quitted | Waiting.

Definition enqueue (pending : list Cmd) (c : option Cmd) : list Cmd :=
  match c with Some c => pending ++ [c] | None => pending end.

(** One round per unit of [fuel]: a pending command chosen by the
    scheduler finishes and its message is handled.  [QuitMsg] ends the
    loop, a [BatchMsg] puts its commands among the pending ones, a nil
    message is dropped, anything else goes through [Update]. *)
Fixpoint eventLoop (fuel : nat) (step : nat) (m : model) (pending : list Cmd)
    (w : World) : option (Exit * model * World) :=
  match fuel with
  | O => None
  | S fuel' =>
      match pending with
      | [] => Some (Waiting, m, w)
      | _ =>
          let i := (sched w step mod List.length pending)%nat in
          match nth_error pending i with
          | None => None
          | Some c =>
              let rest := firstn i pending ++ skipn (S i) pending in
              let (msg, w') := c w in
              match msg with
              | None => eventLoop fuel' (S step) m rest w'
              | Some QuitMsg => Some (Quitted, m, w')
              | Some (BatchMsg cmds) => eventLoop fuel' (S step) m (rest ++ cmds) w'
              | Some msg =>
                  let (m', c') := Update m msg in
                  eventLoop fuel' (S step) m' (enqueue rest c') w'
              end
          end
      end
  end.

(** [tea.NewProgram(initialModel()).Start()]: [Init] hands the ping
    command to the loop. *)
Definition Start (fuel : nat) (w : World) : option (Exit * model * World) :=
  eventLoop fuel 0 initialModel [pingTestCmd] w.

End Cli.

(* ================================================================== *)
(** * The client's screen and entry point: cli/main.go *)
(* ================================================================== *)

Module CliMain.

Definition newline : string := String "010" EmptyString.

Section Screen.

(** The two renderings that are not the client's own: the progress bar
    of the widget, and the [%v] and [%.2f] formats of the result
    screen. *)
Variable progressView : Cli.ProgressModel -> string.
Variable results : Z -> float -> float -> string.

Definition View (m : Cli.model) : string :=
  let phase := Cli.phase m in
  if String.eqb phase "ping" then
    String.append "Ping: measuring... " (String.append phase newline)
  else if String.eqb phase "download" then
    String.append "Download: measuring... "
      (String.append phase (String.append newline (progressView (Cli.progress m))))
  else if String.eqb phase "upload" then
    String.append "Upload: measuring... "
      (String.append phase (String.append newline (progressView (Cli.progress m))))
  else if String.eqb phase "done" then
    results (Cli.latency m) (Cli.downloadSpeed m) (Cli.uploadSpeed m)
  else if String.eqb phase "error" then "An error occurred during the test."
  else "".

End Screen.

(** [m.phase = ph] *)
Definition withPhase (m : Cli.model) (ph : string) : Cli.model :=
  {| Cli.phase := ph; Cli.latency := Cli.latency m;
     Cli.downloadSpeed := Cli.downloadSpeed m; Cli.uploadSpeed := Cli.uploadSpeed m;
     Cli.progress := Cli.progress m |}.

(** [tea.NewProgram(m).Run()]: an error [err] of the terminal before
    any command has run, or the event loop started with [m.Init()],
    which is the ping command for every [model].  The result is the
    error of [Run]; [None] on the outside means that [Run] does not
    return. *)
Definition Run (err : option string) (fuel : nat) (m : Cli.model) (w : Cli.World)
    : option (option string * Cli.World) :=
  match err with
  | Some e => Some (Some e, w)
  | None =>
      match Cli.eventLoop fuel 0 m [Cli.pingTestCmd] w with
      | Some (Cli.Quitted, _, w') => Some (None, w')
      | _ => None
      end
  end.

(** How the process ends: what [main] itself printed, the exit status,
    and the world it leaves. *)
Record Process := { stdout : list string; exitCode : Z; after : Cli.World }.

(** [main] for the arguments [args] (the program name first); [err1]
    and [err2] are the terminal errors of the first and of the second
    program. *)
Definition main (args : list string) (err1 err2 : option string) (fuel : nat)
    (w : Cli.World) : option Process :=
  let measurement (w0 : Cli.World) :=
    match Run err2 fuel Cli.initialModel w0 with
    | None => None
    | Some (Some e, w1) =>
        Some {| stdout := [String.append "Error running program: " (String.append e newline)];
                exitCode := 1; after := w1 |}
    | Some (None, w1) => Some {| stdout := []; exitCode := 0; after := w1 |}
    end in
  let first (m : Cli.model) :=
    match Run err1 fuel m w with
    | None => None
    | Some (Some e, w1) =>
        Some {| stdout := [String.append "Error: " e]; exitCode := 1; after := w1 |}
    | Some (None, w1) => measurement w1
    end in
  if (2 <? List.length args)%nat then
    let command := nth 1 args "" in
    if String.eqb command "help" || String.eqb command "--help" || String.eqb command "-h"
    then first (withPhase Cli.initialModel "help")
    else if String.eqb command "version" || String.eqb command "--version"
            || String.eqb command "-v"
    then first (withPhase Cli.initialModel "version")
    else Some {| stdout := [ String.append "Unknown command: " (String.append command newline);
                             String.append "Use 'speedtest help' for usage information" newline ];
                 exitCode := 1; after := w |}
  else measurement w.

End CliMain.

(* ================================================================== *)
(** * The client with placeholder measurements *)
(* ================================================================== *)

(** The earlier client in which the three commands sleep instead of
    talking to a server.  Messages, model and world are those of
    [Cli]; the world only lends its clock and scheduler. *)
Module Placeholder.

Definition pingTestCmd : Cli.Cmd := fun w =>
  (Some (Cli.pingMsg (Cli.pingElapsed w)), w).

Definition downloadTestCmd : Cli.Cmd := fun w =>
  let bytes := 10 * 1024 * 1024 in
  (Some (Cli.downloadMsg bytes (Cli.downloadElapsed w)), w).

Definition uploadTestCmd : Cli.Cmd := fun w =>
  let bytes := 10 * 1024 * 1024 in
  (Some (Cli.uploadMsg bytes (Cli.uploadElapsed w)), w).

Definition Update (m : Cli.model) (msg : Cli.Msg) : Cli.model * option Cli.Cmd :=
  match msg with
  | Cli.pingMsg d =>
      ({| Cli.phase := "download"; Cli.latency := d;
          Cli.downloadSpeed := Cli.downloadSpeed m; Cli.uploadSpeed := Cli.uploadSpeed m;
          Cli.progress := Cli.progress m |}, Some downloadTestCmd)
  | Cli.downloadMsg bytes dur =>
      ({| Cli.phase := "upload"; Cli.latency := Cli.latency m;
          Cli.downloadSpeed :=
            (Go.float64 bytes / Go.Seconds dur / Go.float64 (1024 * 1024))%float;
          Cli.uploadSpeed := Cli.uploadSpeed m;
          Cli.progress := Cli.progress m |}, Some uploadTestCmd)
  | Cli.uploadMsg bytes dur =>
      ({| Cli.phase := "done"; Cli.latency := Cli.latency m;
          Cli.downloadSpeed := Cli.downloadSpeed m;
          Cli.uploadSpeed :=
            (Go.float64 bytes / Go.Seconds dur / Go.float64 (1024 * 1024))%float;
          Cli.progress := Cli.progress m |}, None)
  | Cli.errorMsg _ =>
      ({| Cli.phase := "error"; Cli.latency := Cli.latency m;
          Cli.downloadSpeed := Cli.downloadSpeed m; Cli.uploadSpeed := Cli.uploadSpeed m;
          Cli.progress := {| Cli.Width := 0; Cli.percent := Cli.percent (Cli.progress m) |} |},
       None)
  | _ => (m, None)
  end.

(** The event loop of [Cli], around this [Update]. *)
Fixpoint eventLoop (fuel : nat) (step : nat) (m : Cli.model) (pending : list Cli.Cmd)
    (w : Cli.World) : option (Cli.Exit * Cli.model * Cli.World) :=
  match fuel with
  | O => None
  | S fuel' =>
      match pending with
      | [] => Some (Cli.Waiting, m, w)
      | _ =>
          let i := (Cli.sched w step mod List.length pending)%nat in
          match nth_error pending i with
          | None => None
          | Some c =>
              let rest := firstn i pending ++ skipn (S i) pending in
              let (msg, w') := c w in
              match msg with
              | None => eventLoop fuel' (S step) m rest w'
              | Some Cli.QuitMsg => Some (Cli.Quitted, m, w')
              | Some (Cli.BatchMsg cmds) => eventLoop fuel' (S step) m (rest ++ cmds) w'
              | Some msg =>
                  let (m', c') := Update m msg in
                  eventLoop fuel' (S step) m' (Cli.enqueue rest c') w'
              end
          end
      end
  end.

Definition Start (fuel : nat) (w : Cli.World) : option (Cli.Exit * Cli.model * Cli.World) :=
  eventLoop fuel 0 Cli.initialModel [pingTestCmd] w.

End Placeholder.

(* ================================================================== *)
(** * The one-shot client *)
(* ================================================================== *)

(** The straight-line client that pings, downloads, uploads and prints
    three figures, discarding every error value. *)
Module SimpleClient.

(** What the program can observe: the response of each [http.Get] (nil
    when the request failed), whether [http.NewRequest] succeeded, the
    memory the system grants, and the three readings of [time.Since]. *)
Record Net := {
  get : string -> option Cli.Response;
  newRequestOk : bool;
  memory : Z;
  pingTime : Z;
  downloadTime : Z;
  uploadTime : Z
}.

(** A run ends in a panic, in the fatal error "out of memory", or in
    the line that [Printf] prints, given here by its three operands. *)
Inductive End :=
  | Panicked
  | OutOfMemory
  | Printed (latency : Z) (speedDown speedUp : float).

(** [main] for the flags [-server] and [-size]: how it ends, and the
    URLs it has requested until then. *)
Definition main (server : string) (size : Z) (n : Net) : End * list string :=
  let pingURL := String.append server "/ping" in
  let latency := pingTime n in
  let downloadURL :=
    String.append server (String.append "/download?size=" (Go.Itoa size)) in
  match get n downloadURL with
  | None => (Panicked, [pingURL; downloadURL])
  | Some resp =>
      let (read, _) := Http.Copy_Discard (Cli.Body resp) in
      let speedDown :=
        (Go.float64 read / Go.Seconds (downloadTime n) / Go.float64 1024
           / Go.float64 1024)%float in
      match Go.make (memory n) size with
      | Go.PanicLen => (Panicked, [pingURL; downloadURL])
      | Go.FatalOOM => (OutOfMemory, [pingURL; downloadURL])
      | Go.Slice payload =>
          let uploadURL := String.append server "/upload" in
          if newRequestOk n then
            let speedUp :=
              (Go.float64 size / Go.Seconds (uploadTime n) / Go.float64 1024
                 / Go.float64 1024)%float in
            (Printed latency speedDown speedUp, [pingURL; downloadURL; uploadURL])
          else (Panicked, [pingURL; downloadURL])
      end
  end.

End SimpleClient.

(* ================================================================== *)
(** * Vocabulary of the statements *)
(* ================================================================== *)

(** A connection on which every write succeeds. *)
Definition allOk : nat -> bool := fun _ => true.

(** The writes a download of [r] bytes is expected to make: whole
    copies of the payload chunk, then one shorter slice for the rest. *)
Definition chunksOf (chunk : list byte) (r : Z) : list (list byte) :=
  repeat chunk (Z.to_nat (r / Go.len chunk)) ++
  (if r mod Go.len chunk =? 0 then []
   else [Go.slice_to chunk (r mod Go.len chunk)]).

(** The writer after the successful writes [ps]. *)
Definition sendAll (w : Http.ResponseWriter) (ps : list (list byte)) : Http.ResponseWriter :=
  {| Http.header := Http.header w;
     Http.status := match ps with
                    | [] => Http.status w
                    | _ => match Http.status w with
                           | None => Some Http.StatusOK
                           | s => s
                           end
                    end;
     Http.written := Http.written w ++ ps;
     Http.attempts := Http.attempts w + List.length ps;
     Http.wok := Http.wok w |}.

(** A request for [/download] or [/upload]. *)
Definition request (q : Http.Values) (b : Http.Body) : Http.Request :=
  {| Http.Query := q; Http.ReqBody := b |}.

Definition noBody : Http.Body := {| Http.reads := []; Http.ending := Http.EOF |}.

(** What a finished download of [size] bytes looks like on the wire. *)
Definition served (chunk : list byte) (size : Z) (w : Http.ResponseWriter) : Prop :=
  Http.status w = Some Http.StatusOK /\
  Http.headerOf w "Content-Length" = Some (Go.Itoa size) /\
  Http.written w = chunksOf chunk size /\
  Go.len (Http.bodyBytes w) = size.

(** The body of the 400 answer. *)
Definition invalidSizeText : list byte :=
  list_byte_of_string (String.append "invalid size parameter" (String "010" EmptyString)).

(** The goroutines whose request came back without a transport error. *)
Definition succeeded (o : Cli.StreamOutcome) : bool :=
  match o with
  | Cli.Done (Cli.Ok _) => true
  | _ => false
  end.

Definition okCount (os : list Cli.StreamOutcome) : Z :=
  Z.of_nat (List.length (filter succeeded os)).

(** The goroutines whose upload the server accepted: a response came
    back and its status is a 2xx. *)
Definition acknowledged (o : Cli.StreamOutcome) : bool :=
  match o with
  | Cli.Done (Cli.Ok resp) =>
      (200 <=? Cli.StatusCode resp) && (Cli.StatusCode resp <? 300)
  | _ => false
  end.

(** The same outcome with another response in place of the one that
    came back. *)
Definition withResponse (f : Cli.Response -> Cli.Response) (o : Cli.StreamOutcome)
    : Cli.StreamOutcome :=
  match o with
  | Cli.Done (Cli.Ok resp) => Cli.Done (Cli.Ok (f resp))
  | _ => o
  end.

(** The messages a command hands to the event loop: its own, or, for a
    batch, those of the batched commands. *)
Definition deliveries (c : Cli.Cmd) (w : Cli.World) : list (option Cli.Msg) :=
  match c w with
  | (Some (Cli.BatchMsg cmds), w') => map (fun c' => fst (c' w')) cmds
  | (m, _) => [m]
  end.

(** A server answer with status [code] and an empty body. *)
Definition answer (code : Z) : Cli.Result :=
  Cli.Ok {| Cli.StatusCode := code; Cli.Body := noBody |}.

(** A world with the given network, clock readings of 20 ms, 2 s and
    4 s, and a scheduler that always takes the oldest pending command. *)
Definition world (get : string -> Cli.Result) (post : nat -> Cli.StreamOutcome)
    : Cli.World :=
  {| Cli.get := get; Cli.post := post;
     Cli.pingElapsed := 20000000; Cli.downloadElapsed := 2 * Go.Second;
     Cli.uploadElapsed := 4 * Go.Second;
     Cli.sched := fun _ => 0%nat; Cli.issued := [] |}.

(** The formula of the specification for a phase result. *)
Definition throughputMBps (bytesTransferred elapsed : Z) : float :=
  (Go.float64 bytesTransferred / Go.Seconds elapsed / Go.float64 (1024 * 1024))%float.

(** The two requests that precede the upload. *)
Definition pingRequest : Cli.Sent :=
  {| Cli.Method := "GET"; Cli.URL := "http://localhost:8080/ping";
     Cli.ContentLength := 0 |}.

Definition downloadRequest : Cli.Sent :=
  {| Cli.Method := "GET";
     Cli.URL := "http://localhost:8080/download?size=104857600";
     Cli.ContentLength := 0 |}.

(** What a finished run shows: how it ended, the phase, and the URLs of
    the requests in the order they were sent. *)
Definition outcome (r : option (Cli.Exit * Cli.model * Cli.World))
    : option (Cli.Exit * string * list string) :=
  match r with
  | Some (e, m, w) => Some (e, Cli.phase m, map Cli.URL (Cli.issued w))
  | None => None
  end.

(** ** A whole measurement *)

(** The size of one upload segment and the outcomes of the goroutines
    of [uploadTestCmd], in launch order. *)
Definition segment : Z := Z.quot Cli.testSize Cli.streams.

Definition streamOutcomes (w : Cli.World) : list Cli.StreamOutcome :=
  map (Cli.post w) (seq 0 (Z.to_nat Cli.streams)).

(** The bytes the upload phase confirms. *)
Definition confirmed (w : Cli.World) : Z := segment * okCount (streamOutcomes w).

(** The bytes the download phase reads from the response body. *)
Definition downloaded (w : Cli.World) : Z :=
  match Cli.get w (Cli.URL downloadRequest) with
  | Cli.Ok r => Go.len (List.concat (Http.reads (Cli.Body r)))
  | Cli.Err _ => 0
  end.

(** Does the ping or the download run into a transport error? *)
Definition transportFailure (w : Cli.World) : bool :=
  match Cli.get w (Cli.URL pingRequest) with
  | Cli.Err _ => true
  | Cli.Ok _ =>
      match Cli.get w (Cli.URL downloadRequest) with
      | Cli.Err _ => true
      | Cli.Ok r =>
          match Http.ending (Cli.Body r) with
          | Http.ReadErr => true
          | Http.EOF => false
          end
      end
  end.

(** The requests of a measurement that gets through all three phases. *)
Definition measurementRequests (w : Cli.World) : list Cli.Sent :=
  [pingRequest; downloadRequest] ++ Cli.uploadsSent segment (streamOutcomes w).

(** Two worlds with the same network, clock and scheduler. *)
Definition sameOutside (w w' : Cli.World) : Prop :=
  Cli.get w' = Cli.get w /\ Cli.post w' = Cli.post w /\
  Cli.pingElapsed w' = Cli.pingElapsed w /\
  Cli.downloadElapsed w' = Cli.downloadElapsed w /\
  Cli.uploadElapsed w' = Cli.uploadElapsed w /\
  Cli.sched w' = Cli.sched w.

(** ** The client against a backend *)

(** The three handlers the client talks to. *)
Record Handlers := {
  onPing : Http.ResponseWriter -> Http.ResponseWriter;
  onDownload : nat -> Http.Request -> Http.ResponseWriter -> option Handled;
  onUpload : Http.Request -> Http.ResponseWriter -> Http.ResponseWriter
}.

Definition backend (s : Backend.Server) : Handlers :=
  {| onPing := Backend.pingHandler;
     onDownload := fun fuel r w => option_map Returns (Backend.downloadHandler s fuel r w);
     onUpload := Backend.uploadHandler |}.

Definition metrics (s : Metrics.Server) : Handlers :=
  {| onPing := Metrics.pingHandler;
     onDownload := Metrics.downloadHandler s;
     onUpload := Metrics.uploadHandler |}.

(** A finished answer as the client receives it.  The body ends in an
    error when a valid [Content-Length] promised another number of
    bytes than arrived; a header that is no non-negative number is not
    sent at all. *)
Definition wire (w : Http.ResponseWriter) : Cli.Response :=
  {| Cli.StatusCode := Http.finalStatus w;
     Cli.Body :=
       {| Http.reads := Http.written w;
          Http.ending :=
            match Http.headerOf w "Content-Length" with
            | Some v =>
                match Go.Atoi v with
                | Some n =>
                    if (0 <=? n) && negb (n =? Go.len (Http.bodyBytes w))
                    then Http.ReadErr else Http.EOF
                | None => Http.EOF
                end
            | None => Http.EOF
            end |} |}.

(** The answer to a call that is over.  A handler that panicked before
    anything was sent leaves the client with a broken connection; one
    that had begun to answer leaves a body that breaks off. *)
Definition wireOf (h : Handled) : Cli.Result :=
  match h with
  | Returns w => Cli.Ok (wire w)
  | Panics w =>
      match Http.status w with
      | None => Cli.Err "EOF"
      | Some code =>
          Cli.Ok {| Cli.StatusCode := code;
                    Cli.Body := {| Http.reads := Http.written w;
                                   Http.ending := Http.ReadErr |} |}
      end
  end.

(** [make([]byte, n)] when it succeeds. *)
Definition zeros (n : Z) : list byte := repeat Byte.x00 (Z.to_nat n).

(** The body of one upload request: [segment] zero bytes, read to the
    end. *)
Definition segmentBody : Http.Body :=
  {| Http.reads := [zeros segment]; Http.ending := Http.EOF |}.

(** The world of a client whose three URLs are answered by the handlers
    [h], each on a connection of its own that takes every write.  The
    download handler gets [sfuel]; if it has not returned by then there
    is no such world.  Any other URL would get the 404 of the mux. *)
Definition servedBy (h : Handlers) (sfuel : nat) (pingE dlE ulE : Z)
    (sched : nat -> nat) : option Cli.World :=
  match onDownload h sfuel (request [("size", Go.Itoa Cli.testSize)] noBody)
          (Http.newWriter allOk) with
  | None => None
  | Some hd =>
      Some {| Cli.get := fun url =>
                if String.eqb url (Cli.URL pingRequest)
                then Cli.Ok (wire (onPing h (Http.newWriter allOk)))
                else if String.eqb url (Cli.URL downloadRequest)
                then wireOf hd
                else Cli.Ok (wire (Http.Error (Http.newWriter allOk)
                                     "404 page not found" 404));
              Cli.post := fun _ =>
                Cli.Done (Cli.Ok (wire (onUpload h (request [] segmentBody)
                                          (Http.newWriter allOk))));
              Cli.pingElapsed := pingE;
              Cli.downloadElapsed := dlE;
              Cli.uploadElapsed := ulE;
              Cli.sched := sched;
              Cli.issued := [] |}
  end.

(** The bytes announced by the requests the goroutines sent. *)
Definition attempted (rs : list Cli.Sent) : Z :=
  fold_right Z.add 0 (map Cli.ContentLength rs).

(* ================================================================== *)
(** * Decimal text: [Itoa] and [Atoi] agree *)
(* ================================================================== *)

Section Decimal.

Lemma digit_char_is_digit d :
  0 <= d < 10 -> Go.is_digit (Go.digit_char d) = true /\ Go.digit_val (Go.digit_char d) = d.
Proof.
  intros H.
  assert (d = 0 \/ d = 1 \/ d = 2 \/ d = 3 \/ d = 4 \/
          d = 5 \/ d = 6 \/ d = 7 \/ d = 8 \/ d = 9) as C by lia.
  repeat (destruct C as [-> | C]; [split; reflexivity|]).
  subst d; split; reflexivity.
Qed.

Lemma digit_not_sign c :
  Go.is_digit c = true -> Ascii.eqb c "-" = false /\ Ascii.eqb c "+" = false.
Proof.
  intros H; split.
  - destruct (Ascii.eqb_spec c "-"%char) as [-> | _]; [discriminate H | reflexivity].
  - destruct (Ascii.eqb_spec c "+"%char) as [-> | _]; [discriminate H | reflexivity].
Qed.

Lemma parse_digits_app s1 : forall a s2,
  Go.parse_digits a (String.append s1 s2) =
  match Go.parse_digits a s1 with
  | Some a' => Go.parse_digits a' s2
  | None => None
  end.
Proof.
  induction s1 as [| c s1 IH]; intros a s2; simpl; [reflexivity|].
  destruct (Go.is_digit c); [apply IH | reflexivity].
Qed.

Lemma append_assoc (a b c : string) :
  String.append (String.append a b) c = String.append a (String.append b c).
Proof. induction a as [| x a IH]; simpl; [reflexivity | now rewrite IH]. Qed.

Lemma formatBits_acc fuel : forall u acc,
  Go.formatBits fuel u acc = String.append (Go.formatBits fuel u "") acc.
Proof.
  induction fuel as [| f IH]; intros u acc; simpl; [reflexivity|].
  destruct (u <? 10); [reflexivity|].
  rewrite IH, (IH _ (String _ "")), append_assoc. reflexivity.
Qed.

Lemma parse_formatBits fuel : forall u,
  0 <= u < 10 ^ Z.of_nat fuel ->
  Go.parse_digits 0 (Go.formatBits fuel u "") = Some u.
Proof.
  induction fuel as [| f IH]; intros u Hu.
  - simpl in *. f_equal. lia.
  - rewrite Nat2Z.inj_succ, Z.pow_succ_r in Hu by lia.
    simpl. destruct (Z.ltb_spec u 10) as [Hlt | Hge].
    + destruct (digit_char_is_digit u) as [Hd Hv]; [lia|].
      simpl. rewrite Hd, Hv. reflexivity.
    + rewrite formatBits_acc, parse_digits_app, IH.
      * destruct (digit_char_is_digit (u mod 10)) as [Hd Hv];
          [apply Z.mod_pos_bound; lia|].
        simpl. rewrite Hd, Hv. f_equal.
        pose proof (Z.div_mod u 10). lia.
      * split; [apply Z.div_pos; lia|].
        apply Z.div_lt_upper_bound; lia.
Qed.

Lemma formatBits_head fuel : forall u acc,
  0 <= u ->
  exists c rest, Go.formatBits (S fuel) u acc = String c rest /\ Go.is_digit c = true.
Proof.
  induction fuel as [| f IH]; intros u acc Hu.
  - simpl. destruct (Z.ltb_spec u 10).
    + eexists _, _; split; [reflexivity|]. apply digit_char_is_digit; lia.
    + eexists _, _; split; [reflexivity|].
      apply digit_char_is_digit, Z.mod_pos_bound; lia.
  - change (Go.formatBits (S (S f)) u acc) with
      (if u <? 10 then String (Go.digit_char u) acc
       else Go.formatBits (S f) (u / 10) (String (Go.digit_char (u mod 10)) acc)).
    destruct (Z.ltb_spec u 10).
    + eexists _, _; split; [reflexivity|]. apply digit_char_is_digit; lia.
    + apply IH, Z.div_pos; lia.
Qed.

(** The text [Itoa] prints is read back by [Atoi] as the same [int]. *)
Lemma Atoi_Itoa i :
  Go.minInt <= i <= Go.maxInt -> Go.Atoi (Go.Itoa i) = Some i.
Proof.
  intros Hi. unfold Go.Itoa.
  assert (Hin : Go.inInt i = true).
  { unfold Go.inInt. apply andb_true_intro; split; apply Z.leb_le; lia. }
  assert (Hpow : 2 ^ 63 < 10 ^ Z.of_nat 20) by (vm_compute; reflexivity).
  unfold Go.minInt, Go.maxInt in Hi.
  destruct (Z.ltb_spec i 0) as [Hneg | Hpos].
  - destruct (formatBits_head 19 (- i) "") as (c & rest & E & Hc); [lia|].
    unfold Go.Atoi. simpl Ascii.eqb. cbv iota beta zeta. simpl orb. cbv iota.
    pose proof (parse_formatBits 20 (- i)) as P.
    rewrite E in *. rewrite P by lia.
    rewrite Z.opp_involutive, Hin. reflexivity.
  - destruct (formatBits_head 19 i "") as (c & rest & E & Hc); [lia|].
    pose proof (parse_formatBits 20 i) as P.
    rewrite E in *. unfold Go.Atoi.
    destruct (digit_not_sign c Hc) as [-> ->]. simpl orb. cbv iota zeta.
    rewrite P by lia. rewrite Hin. reflexivity.
Qed.

(** [Atoi] rejects the empty string, so a parsed parameter is never
    mistaken for an absent one. *)
Lemma Atoi_nonempty s n : Go.Atoi s = Some n -> String.eqb s "" = false.
Proof. destruct s; [discriminate | reflexivity]. Qed.

End Decimal.

(* ================================================================== *)
(** * The streaming loop *)
(* ================================================================== *)

Section Streaming.

Variable chunk : list byte.
Hypothesis chunk_nonempty : chunk <> [].

Let c := Go.len chunk.

Lemma chunk_pos : 0 < c.
Proof.
  subst c. unfold Go.len. destruct chunk; [congruence | simpl; lia].
Qed.

Lemma chunksOf_zero : chunksOf chunk 0 = [].
Proof.
  pose proof chunk_pos. unfold chunksOf. fold c.
  rewrite Z.div_0_l, Z.mod_0_l by lia. reflexivity.
Qed.

Lemma slice_whole : Go.slice_to chunk c = chunk.
Proof.
  subst c. unfold Go.slice_to, Go.len. rewrite Nat2Z.id. apply firstn_all.
Qed.

(** One round of the loop peels the first expected write off. *)
Lemma chunksOf_step r :
  0 < r ->
  let n := if r >? c then c else r in
  chunksOf chunk r = Go.slice_to chunk n :: chunksOf chunk (r - n).
Proof.
  pose proof chunk_pos as Hc. intros Hr n. subst n.
  destruct (Z.gtb_spec r c) as [Hgt | Hle].
  - unfold chunksOf. fold c.
    assert (r / c = (r - c) / c + 1) as ->.
    { replace r with ((r - c) + 1 * c) at 1 by lia.
      rewrite Z.div_add by lia. reflexivity. }
    assert (r mod c = (r - c) mod c) as ->.
    { replace r with ((r - c) + 1 * c) at 1 by lia.
      rewrite Z.mod_add by lia. reflexivity. }
    rewrite Z2Nat.inj_add by (try apply Z.div_pos; lia).
    rewrite Nat.add_comm. simpl. rewrite slice_whole. reflexivity.
  - rewrite Z.sub_diag, chunksOf_zero. unfold chunksOf. fold c.
    destruct (Z.eq_dec r c) as [-> | Hne].
    + rewrite Z.div_same, Z.mod_same by lia. rewrite slice_whole. reflexivity.
    + rewrite Z.div_small, Z.mod_small by lia. simpl.
      destruct (Z.eqb_spec r 0); [lia | reflexivity].
Qed.

Lemma length_concat_repeat (n : nat) :
  List.length (List.concat (repeat chunk n)) = (n * List.length chunk)%nat.
Proof.
  induction n as [| n IH]; simpl; [reflexivity|].
  rewrite length_app, IH. reflexivity.
Qed.

(** The expected writes add up to exactly [r] bytes. *)
Lemma chunksOf_total r : 0 <= r -> Go.len (List.concat (chunksOf chunk r)) = r.
Proof.
  pose proof chunk_pos as Hc. intros Hr.
  unfold chunksOf. fold c. unfold Go.len.
  rewrite concat_app, length_app, length_concat_repeat.
  pose proof (Z.div_mod r c ltac:(lia)) as E.
  pose proof (Z.mod_pos_bound r c Hc) as B.
  pose proof (Z.div_pos r c Hr Hc) as D.
  assert (Hl : Z.of_nat (List.length chunk) = c) by reflexivity.
  destruct (Z.eqb_spec (r mod c) 0) as [Hz | Hnz]; simpl.
  - rewrite Nat.add_0_r, Nat2Z.inj_mul, Z2Nat.id, Hl by lia. lia.
  - rewrite app_nil_r. unfold Go.slice_to. rewrite length_firstn.
    rewrite Nat2Z.inj_add, Nat2Z.inj_mul, Z2Nat.id, Hl by lia.
    rewrite Nat.min_l by lia. lia.
Qed.

(** No single write is longer than the payload chunk. *)
Lemma chunksOf_bounded r :
  Forall (fun p => Go.len p <= c) (chunksOf chunk r).
Proof.
  unfold chunksOf. apply Forall_app; split.
  - apply Forall_forall. intros p Hp. apply repeat_spec in Hp. subst p.
    subst c. lia.
  - destruct (_ =? 0); constructor; [|constructor].
    unfold Go.slice_to, Go.len. rewrite length_firstn. subst c. unfold Go.len. lia.
Qed.

(** The number of writes: [r / c], and one more when [c] does not
    divide [r]. *)
Lemma chunksOf_count r :
  0 <= r ->
  Z.of_nat (List.length (chunksOf chunk r)) = r / c + (if r mod c =? 0 then 0 else 1).
Proof.
  pose proof chunk_pos as Hc. intros Hr. unfold chunksOf. fold c.
  rewrite length_app, repeat_length, Nat2Z.inj_add, Z2Nat.id
    by (apply Z.div_pos; lia).
  destruct (_ =? 0); reflexivity.
Qed.

Lemma sendAll_nil w : sendAll w [] = w.
Proof.
  destruct w; unfold sendAll; simpl. rewrite app_nil_r, Nat.add_0_r. reflexivity.
Qed.

Lemma Write_sendAll w p ps :
  (forall k, Http.wok w k = true) ->
  Http.Write w p = (fst (Http.Write w p), false) /\
  (forall k, Http.wok (fst (Http.Write w p)) k = true) /\
  sendAll (fst (Http.Write w p)) ps = sendAll w (p :: ps).
Proof.
  intros Hok. unfold Http.Write. rewrite Hok. simpl. repeat split; [exact Hok|].
  unfold sendAll; simpl. rewrite <- app_assoc, Nat.add_succ_r. simpl.
  f_equal. destruct ps, (Http.status w); reflexivity.
Qed.

(** With enough fuel, and as long as the peer keeps reading, the loop
    returns after making exactly the expected writes. *)
Lemma streamLoop_sends fuel : forall totalSize sent w,
  (forall k, Http.wok w k = true) ->
  0 <= sent <= totalSize ->
  (Z.to_nat (totalSize - sent) < fuel)%nat ->
  streamLoop fuel chunk totalSize sent w =
  Some (sendAll w (chunksOf chunk (totalSize - sent))).
Proof.
  pose proof chunk_pos as Hc.
  induction fuel as [| f IH]; intros totalSize sent w Hok Hs Hf; [lia|].
  simpl. destruct (Z.ltb_spec sent totalSize) as [Hlt | Hge].
  - fold c.
    pose proof (chunksOf_step (totalSize - sent) ltac:(lia)) as St.
    cbv zeta in St. rewrite St.
    set (n := if totalSize - sent >? c then c else totalSize - sent) in *.
    assert (Hn : 0 < n <= totalSize - sent).
    { subst n. destruct (Z.gtb_spec (totalSize - sent) c); lia. }
    destruct (Write_sendAll w (Go.slice_to chunk n)
                (chunksOf chunk (totalSize - sent - n)) Hok) as (E & Hok' & S').
    rewrite E. rewrite IH; [| exact Hok' | lia | lia].
    replace (totalSize - (sent + n)) with (totalSize - sent - n) by lia.
    rewrite S'. reflexivity.
  - replace (totalSize - sent) with 0 by lia.
    rewrite chunksOf_zero, sendAll_nil. reflexivity.
Qed.

End Streaming.

(** An empty payload chunk never makes progress: for a positive size the
    loop is still running whatever the fuel. *)
Lemma streamLoop_empty_chunk fuel : forall totalSize sent w,
  (forall k, Http.wok w k = true) ->
  sent < totalSize ->
  streamLoop fuel [] totalSize sent w = None.
Proof.
  induction fuel as [| f IH]; intros totalSize sent w Hok Hlt; [reflexivity|].
  simpl. destruct (Z.ltb_spec sent totalSize); [|lia].
  assert ((if totalSize - sent >? Go.len (@nil byte) then Go.len (@nil byte)
           else totalSize - sent) = 0) as ->.
  { unfold Go.len; simpl. destruct (Z.gtb_spec (totalSize - sent) 0); lia. }
  destruct (Write_sendAll w (Go.slice_to [] 0) [] Hok) as (E & Hok' & _).
  rewrite E, Z.add_0_r. apply IH; assumption.
Qed.

(** The loop that reports how it ended goes through the same writers
    as the plain one. *)
Lemma streamLoopTo_fst (chunk : list byte) fuel : forall totalSize sent w,
  option_map fst (streamLoopTo fuel chunk totalSize sent w) =
  streamLoop fuel chunk totalSize sent w.
Proof.
  induction fuel as [| fuel IH]; intros totalSize sent w; [reflexivity|].
  cbn [streamLoop streamLoopTo]. destruct (sent <? totalSize); [| reflexivity].
  destruct (Http.Write w _) as [w' err]. destruct err; [reflexivity | apply IH].
Qed.

(** What the metrics backend makes of the loop: for a size that is not
    negative the counter takes it, and the handler returns where the
    plain loop does. *)
Lemma metrics_serve (chunk : list byte) fuel totalSize w0 w :
  streamLoop fuel chunk totalSize 0 w0 = Some w ->
  0 <= totalSize ->
  match streamLoopTo fuel chunk totalSize 0 w0 with
  | None => None
  | Some (w', false) => Some (Returns w')
  | Some (w', true) =>
      if Add_panics totalSize then Some (Panics w') else Some (Returns w')
  end = Some (Returns w).
Proof.
  intros E Ht. rewrite <- streamLoopTo_fst in E.
  assert (Hp : Add_panics totalSize = false) by (apply Z.ltb_ge; exact Ht).
  destruct (streamLoopTo fuel chunk totalSize 0 w0) as [[w' []] |];
    simpl in E; try discriminate; injection E as ->; [rewrite Hp|]; reflexivity.
Qed.

Lemma metrics_serve_none (chunk : list byte) fuel totalSize w0 :
  streamLoop fuel chunk totalSize 0 w0 = None ->
  match streamLoopTo fuel chunk totalSize 0 w0 with
  | None => None
  | Some (w', false) => Some (Returns w')
  | Some (w', true) =>
      if Add_panics totalSize then Some (Panics w') else Some (Returns w')
  end = None.
Proof.
  intros E. rewrite <- streamLoopTo_fst in E.
  destruct (streamLoopTo fuel chunk totalSize 0 w0); [discriminate | reflexivity].
Qed.

Lemma metrics_serve_returns (chunk : list byte) fuel totalSize w0 w :
  match streamLoopTo fuel chunk totalSize 0 w0 with
  | None => None
  | Some (w', false) => Some (Returns w')
  | Some (w', true) =>
      if Add_panics totalSize then Some (Panics w') else Some (Returns w')
  end = Some (Returns w) ->
  streamLoop fuel chunk totalSize 0 w0 = Some w.
Proof.
  intros E. rewrite <- streamLoopTo_fst.
  destruct (streamLoopTo fuel chunk totalSize 0 w0) as [[w' []] |];
    try discriminate; [destruct (Add_panics totalSize); try discriminate|];
    injection E as ->; reflexivity.
Qed.

(* ================================================================== *)
(** * The download endpoint *)
(* ================================================================== *)

(** The part of [downloadHandler] after validation. *)
Lemma serve_exact (chunk : list byte) (size : Z) (fuel : nat) :
  chunk <> [] -> 0 < size -> (Z.to_nat size < fuel)%nat ->
  exists w,
    streamLoop fuel chunk size 0
      (Http.Set_ (Http.Set_ (Http.newWriter allOk)
                    "Content-Type" "application/octet-stream")
                 "Content-Length" (Go.Itoa size)) = Some w /\
    served chunk size w.
Proof.
  intros Hc Hs Hf.
  rewrite (streamLoop_sends chunk Hc) by (try reflexivity; lia).
  rewrite Z.sub_0_r. eexists; split; [reflexivity|].
  unfold served, Http.bodyBytes. simpl.
  pose proof (chunksOf_step chunk Hc size Hs) as St. cbv zeta in St.
  repeat split.
  - rewrite St. reflexivity.
  - apply chunksOf_total; [assumption | lia].
Qed.

(** C1.  A request for a valid size [size > 0], served from a non-empty
    payload chunk to a peer that reads everything, is answered by both
    backends with status 200, a [Content-Length] header that spells
    [size] in decimal, and a body of exactly [size] bytes: whole chunks
    followed by one truncated chunk for the remainder.  The handler
    returns as soon as the fuel exceeds [size]. *)
Theorem download_exact_size :
  forall (chunk : list byte) (dflt : Z) (q : Http.Values) (size : Z) (fuel : nat),
    chunk <> [] ->
    Go.Atoi (Http.Get q "size") = Some size ->
    0 < size ->
    (Z.to_nat size < fuel)%nat ->
    (exists w,
        Backend.downloadHandler {| Backend.payloadChunk := chunk |}
          fuel (request q noBody) (Http.newWriter allOk) = Some w /\
        served chunk size w) /\
    (exists w,
        Metrics.downloadHandler
          {| Metrics.payloadChunk := chunk; Metrics.defaultDownloadSize := dflt |}
          fuel (request q noBody) (Http.newWriter allOk) = Some (Returns w) /\
        served chunk size w) /\
    Go.Atoi (Go.Itoa size) = Some size.
Proof.
  intros chunk dflt q size fuel Hc Hp Hs Hf.
  pose proof (Atoi_nonempty _ _ Hp) as Hne.
  assert (Hle : (size <=? 0) = false) by (apply Z.leb_gt; exact Hs).
  split; [| split].
  - unfold Backend.downloadHandler. simpl. rewrite Hne, Hp, Hle.
    apply serve_exact; assumption.
  - destruct (serve_exact chunk size fuel Hc Hs Hf) as (w & E & S).
    exists w. split; [| exact S].
    unfold Metrics.downloadHandler. simpl. rewrite Hne, Hp, Hle.
    apply metrics_serve; [exact E | lia].
  - apply Atoi_Itoa. unfold Go.Atoi in Hp.
    destruct (Http.Get q "size") as [| c0 rest]; [discriminate|].
    destruct (if Ascii.eqb c0 "-" || Ascii.eqb c0 "+" then rest else String c0 rest);
      [discriminate|].
    destruct (Go.parse_digits _ _); [|discriminate].
    destruct (Go.inInt _) eqn:Hin; [|discriminate].
    injection Hp as <-. unfold Go.inInt in Hin.
    apply andb_prop in Hin. destruct Hin as [H1 H2].
    apply Z.leb_le in H1, H2. lia.
Qed.

Lemma download_exact_size_witness :
  (exists w,
      Backend.downloadHandler {| Backend.payloadChunk := [Byte.x00; Byte.x00] |}
        6 (request [("size", "5")] noBody) (Http.newWriter allOk) = Some w /\
      served [Byte.x00; Byte.x00] 5 w) /\
  (exists w,
      Metrics.downloadHandler
        {| Metrics.payloadChunk := [Byte.x00; Byte.x00];
           Metrics.defaultDownloadSize := 7 |}
        6 (request [("size", "5")] noBody) (Http.newWriter allOk) = Some (Returns w) /\
      served [Byte.x00; Byte.x00] 5 w) /\
  Go.Atoi (Go.Itoa 5) = Some 5.
Proof.
  apply (download_exact_size [Byte.x00; Byte.x00] 7 [("size", "5")] 5 6).
  - discriminate.
  - reflexivity.
  - lia.
  - simpl; lia.
Defined.

(** A request without a [size] parameter is served the default of the
    backend at hand: the [-default-size] flag in the metrics backend. *)
Lemma metrics_serves_default (chunk : list byte) (dflt : Z) (q : Http.Values) (fuel : nat) :
  chunk <> [] -> Http.Get q "size" = "" -> 0 < dflt ->
  (Z.to_nat dflt < fuel)%nat ->
  exists w,
    Metrics.downloadHandler
      {| Metrics.payloadChunk := chunk; Metrics.defaultDownloadSize := dflt |}
      fuel (request q noBody) (Http.newWriter allOk) = Some (Returns w) /\
    served chunk dflt w.
Proof.
  intros Hc Hq Hd Hf.
  destruct (serve_exact chunk dflt fuel Hc Hd Hf) as (w & E & S).
  exists w. split; [| exact S].
  unfold Metrics.downloadHandler. simpl. rewrite Hq. simpl.
  apply metrics_serve; [exact E | lia].
Qed.

(** The scenario of the specification on the metrics backend:
    [-chunk-size=1024 -default-size=4096], no [size] parameter, 4096
    bytes in 4 writes. *)
Lemma metrics_default_scenario :
  exists s w,
    Metrics.main {| port := 8080; chunk_size := 1024; random := false;
                    default_size := 4096 |}
                 (fun _ => Byte.x00) (fun _ => true) (2 ^ 30) = Serving s /\
    Metrics.downloadHandler s 5 (request [] noBody) (Http.newWriter allOk) = Some (Returns w) /\
    Http.status w = Some 200 /\
    Http.headerOf w "Content-Length" = Some "4096" /\
    List.length (Http.written w) = 4%nat /\
    List.length (Http.bodyBytes w) = 4096%nat.
Proof.
  eexists _, _. split; [reflexivity|]. split; [vm_compute; reflexivity|].
  vm_compute. repeat split.
Qed.

(** C4.  [main.go] started with [-chunk-size=1024 -default-size=4096]
    and asked for [/download] without a [size] parameter: the flag is
    not consulted, the handler announces and sends 41943040 bytes in
    40960 writes. *)
Theorem backend_default_size_flag_unused :
  exists s fuel w,
    Backend.main {| port := 8080; chunk_size := 1024; random := false;
                    default_size := 4096 |}
                 (fun _ => Byte.x00) (fun _ => true) (2 ^ 30) = Serving s /\
    Backend.downloadHandler s fuel (request [] noBody) (Http.newWriter allOk) = Some w /\
    Http.status w = Some 200 /\
    Http.headerOf w "Content-Length" = Some "41943040" /\
    Go.len (Http.bodyBytes w) = 41943040 /\
    Z.of_nat (List.length (Http.written w)) = 40960.
Proof.
  set (chunk := repeat Byte.x00 1024).
  assert (Hc : chunk <> []) by discriminate.
  assert (Hl : Go.len chunk = 1024) by reflexivity.
  destruct (serve_exact chunk 41943040 (S (Z.to_nat 41943040)) Hc) as (w & E & S1 & S2 & S3 & S4);
    [lia | lia |].
  exists {| Backend.payloadChunk := chunk |}, (S (Z.to_nat 41943040)), w.
  split; [reflexivity|]. split; [exact E|].
  split; [exact S1|]. split; [exact S2|]. split; [exact S4|].
  rewrite S3, (chunksOf_count chunk Hc) by lia. rewrite Hl. reflexivity.
Qed.

(** ** Rejected sizes *)

(** C9, as the code has it.  A [size] value that is not empty and that
    [Atoi] rejects or reads as an integer [<= 0] gets the answer of
    [http.Error] and nothing else, in both backends, without a single
    round of the streaming loop (no fuel is needed): status 400, no
    [Content-Length], and on the wire at most the text of the error
    message, never a slice of the payload chunk. *)
Theorem download_rejects_bad_size :
  forall (chunk : list byte) (dflt : Z) (q : Http.Values) (ok : nat -> bool) (fuel : nat),
    Http.Get q "size" <> "" ->
    match Go.Atoi (Http.Get q "size") with
    | Some n => n <= 0
    | None => True
    end ->
    let w := Http.Error (Http.newWriter ok) "invalid size parameter" Http.StatusBadRequest in
    Backend.downloadHandler {| Backend.payloadChunk := chunk |}
      fuel (request q noBody) (Http.newWriter ok) = Some w /\
    Metrics.downloadHandler
      {| Metrics.payloadChunk := chunk; Metrics.defaultDownloadSize := dflt |}
      fuel (request q noBody) (Http.newWriter ok) = Some (Returns w) /\
    Http.status w = Some 400 /\
    Http.headerOf w "Content-Length" = None /\
    Http.bodyBytes w = (if ok 0%nat then invalidSizeText else []).
Proof.
  intros chunk dflt q ok fuel Hne Hbad w.
  assert (Hq : String.eqb (Http.Get q "size") "" = false).
  { destruct (String.eqb_spec (Http.Get q "size") ""); [contradiction | reflexivity]. }
  split; [| split; [| split; [| split]]].
  - unfold Backend.downloadHandler. simpl. rewrite Hq.
    destruct (Go.Atoi _) as [n|]; [|reflexivity].
    destruct (Z.leb_spec n 0); [reflexivity | lia].
  - unfold Metrics.downloadHandler. simpl. rewrite Hq.
    destruct (Go.Atoi _) as [n|]; [|reflexivity].
    destruct (Z.leb_spec n 0); [reflexivity | lia].
  - subst w. unfold Http.Error, Http.Write. simpl.
    destruct (ok 0%nat); reflexivity.
  - subst w. unfold Http.headerOf, Http.Error, Http.Write. simpl.
    destruct (ok 0%nat); reflexivity.
  - subst w. unfold Http.bodyBytes, Http.Error, Http.Write. simpl.
    destruct (ok 0%nat); reflexivity.
Qed.

Lemma download_rejects_bad_size_witness :
  let w := Http.Error (Http.newWriter allOk) "invalid size parameter" Http.StatusBadRequest in
  Backend.downloadHandler {| Backend.payloadChunk := [Byte.x00] |}
    0 (request [("size", "-3")] noBody) (Http.newWriter allOk) = Some w /\
  Metrics.downloadHandler
    {| Metrics.payloadChunk := [Byte.x00]; Metrics.defaultDownloadSize := 8 |}
    0 (request [("size", "-3")] noBody) (Http.newWriter allOk) = Some (Returns w) /\
  Http.status w = Some 400 /\
  Http.headerOf w "Content-Length" = None /\
  Http.bodyBytes w = (if allOk 0%nat then invalidSizeText else []).
Proof.
  apply (download_rejects_bad_size [Byte.x00] 8 [("size", "-3")] allOk 0).
  - discriminate.
  - simpl. lia.
Defined.

(** C9, as the claim has it, fails for the empty value: [?size=] is a
    size parameter whose value is not a number, and it is served like an
    absent one, with status 200 and payload bytes. *)
Lemma empty_size_value_is_served :
  let q := [("size", "")] in
  let s := {| Metrics.payloadChunk := [Byte.x00; Byte.x00];
              Metrics.defaultDownloadSize := 3 |} in
  Go.Atoi (Http.Get q "size") = None /\
  exists w,
    Metrics.downloadHandler s 4 (request q noBody) (Http.newWriter allOk) = Some (Returns w) /\
    Http.status w = Some 200 /\
    Http.bodyBytes w = [Byte.x00; Byte.x00; Byte.x00].
Proof.
  split; [reflexivity|]. eexists. split; [vm_compute; reflexivity|].
  split; reflexivity.
Qed.

(* ================================================================== *)
(** * The upload endpoint *)
(* ================================================================== *)

(** C3.  A body that is read to its end is acknowledged by both
    backends with status 200 and the text [received N bytes], where [N]
    is the decimal spelling of the number of bytes the body had,
    however the reads were cut. *)
Theorem upload_reports_exact_length :
  forall (reads : list (list byte)) (q : Http.Values),
    Go.len (List.concat reads) <= Go.maxInt ->
    let r := request q {| Http.reads := reads; Http.ending := Http.EOF |} in
    exists N,
      Go.Atoi N = Some (Go.len (List.concat reads)) /\
      Backend.uploadHandler r (Http.newWriter allOk) =
      Metrics.uploadHandler r (Http.newWriter allOk) /\
      Http.status (Backend.uploadHandler r (Http.newWriter allOk)) = Some 200 /\
      Http.written (Backend.uploadHandler r (Http.newWriter allOk)) =
      [list_byte_of_string (String.append "received " (String.append N " bytes"))].
Proof.
  intros reads q Hlen r. exists (Go.Itoa (Go.len (List.concat reads))).
  split; [| split; [| split]].
  - apply Atoi_Itoa. unfold Go.len, Go.minInt in *. lia.
  - reflexivity.
  - reflexivity.
  - reflexivity.
Qed.

Lemma upload_reports_exact_length_witness :
  exists N,
    Go.Atoi N = Some 1 /\
    Backend.uploadHandler
      (request [] {| Http.reads := [[Byte.x2a]]; Http.ending := Http.EOF |})
      (Http.newWriter allOk) =
    Metrics.uploadHandler
      (request [] {| Http.reads := [[Byte.x2a]]; Http.ending := Http.EOF |})
      (Http.newWriter allOk) /\
    Http.status (Backend.uploadHandler
      (request [] {| Http.reads := [[Byte.x2a]]; Http.ending := Http.EOF |})
      (Http.newWriter allOk)) = Some 200 /\
    Http.written (Backend.uploadHandler
      (request [] {| Http.reads := [[Byte.x2a]]; Http.ending := Http.EOF |})
      (Http.newWriter allOk)) =
    [list_byte_of_string (String.append "received " (String.append N " bytes"))].
Proof.
  apply (upload_reports_exact_length [[Byte.x2a]] []).
  vm_compute. discriminate.
Defined.

(** The three body sizes the specification singles out, on a small
    scale: 0, 1 and 8 bytes, the last one arriving in three reads. *)
Lemma upload_examples :
  let run reads := string_of_list_byte (List.concat (Http.written
      (Backend.uploadHandler
         (request [] {| Http.reads := reads; Http.ending := Http.EOF |})
         (Http.newWriter allOk)))) in
  run [] = "received 0 bytes" /\
  run [[Byte.x2a]] = "received 1 bytes" /\
  run [repeat Byte.x00 3; repeat Byte.x01 3; repeat Byte.x02 2] = "received 8 bytes".
Proof. repeat split. Qed.

(** A body that breaks off with an error is answered with status 500;
    the bytes counted so far appear nowhere. *)
Lemma upload_read_error (reads : list (list byte)) (q : Http.Values) :
  let r := request q {| Http.reads := reads; Http.ending := Http.ReadErr |} in
  Backend.uploadHandler r (Http.newWriter allOk) =
  Http.Error (Http.newWriter allOk) "error reading body" Http.StatusInternalServerError /\
  Metrics.uploadHandler r (Http.newWriter allOk) =
  Http.Error (Http.newWriter allOk) "error reading body" Http.StatusInternalServerError.
Proof. split; reflexivity. Qed.

(* ================================================================== *)
(** * Startup *)
(* ================================================================== *)

Lemma make_cases mem n :
  (n < 0 \/ Go.maxAlloc < n -> Go.make mem n = Go.PanicLen) /\
  (0 <= n <= Go.maxAlloc -> mem < n -> Go.make mem n = Go.FatalOOM) /\
  (0 <= n <= Go.maxAlloc -> n <= mem ->
   Go.make mem n = Go.Slice (repeat Byte.x00 (Z.to_nat n))).
Proof.
  unfold Go.make.
  destruct (Z.ltb_spec n 0), (Z.ltb_spec Go.maxAlloc n), (Z.ltb_spec mem n);
    cbn [orb]; repeat split; intros; try reflexivity; lia.
Qed.

Lemma rand_Read_length rnd p : List.length (rand_Read rnd p) = List.length p.
Proof. unfold rand_Read. rewrite length_map, length_seq. reflexivity. Qed.

(** C8, as the code has it.  Neither backend checks a flag.  What stops
    the process before a handler can be reached is the allocation of
    the payload (a panic for a [-chunk-size] that is negative or beyond
    the allocator's limit, the fatal error when the system does not
    grant that much memory) and the opening of the listener on [-port];
    in every other case the server runs, with the chunk size, zero
    included, and the [-default-size], whatever it is, as given.  The
    client is configured by constants, and these are positive and
    divide evenly. *)
Theorem startup_checks_no_flag :
  forall (f : Flags) (rnd : nat -> byte) (bind : Z -> bool) (mem : Z),
    (chunk_size f < 0 \/ Go.maxAlloc < chunk_size f ->
     Backend.main f rnd bind mem = Panicked /\ Metrics.main f rnd bind mem = Panicked) /\
    (0 <= chunk_size f <= Go.maxAlloc -> mem < chunk_size f ->
     Backend.main f rnd bind mem = OutOfMemory /\
     Metrics.main f rnd bind mem = OutOfMemory) /\
    (0 <= chunk_size f <= Go.maxAlloc -> chunk_size f <= mem ->
     bind (port f) = false ->
     Backend.main f rnd bind mem = ListenFailed /\
     Metrics.main f rnd bind mem = ListenFailed) /\
    (0 <= chunk_size f <= Go.maxAlloc -> chunk_size f <= mem ->
     bind (port f) = true ->
     exists s1 s2,
       Backend.main f rnd bind mem = Serving s1 /\
       Metrics.main f rnd bind mem = Serving s2 /\
       Go.len (Backend.payloadChunk s1) = chunk_size f /\
       Go.len (Metrics.payloadChunk s2) = chunk_size f /\
       Metrics.defaultDownloadSize s2 = default_size f) /\
    (0 < Cli.testSize /\ 1 <= Cli.streams /\ Z.rem Cli.testSize Cli.streams = 0).
Proof.
  intros f rnd bind mem.
  destruct (make_cases mem (chunk_size f)) as (Mp & Mo & Ms).
  unfold Backend.main, Metrics.main.
  split; [| split; [| split; [| split]]].
  - intros Hbad. rewrite (Mp Hbad). split; reflexivity.
  - intros Hr Hm. rewrite (Mo Hr Hm). split; reflexivity.
  - intros Hr Hm Hb. rewrite (Ms Hr Hm), Hb. split; reflexivity.
  - intros Hr Hm Hb. rewrite (Ms Hr Hm), Hb.
    eexists _, _. split; [reflexivity|]. split; [reflexivity|].
    cbn [Backend.payloadChunk Metrics.payloadChunk Metrics.defaultDownloadSize].
    repeat split; unfold Go.len;
      destruct (random f); rewrite ?rand_Read_length, repeat_length; lia.
  - unfold Cli.testSize, Cli.streams. repeat split; lia || reflexivity.
Qed.

Lemma startup_checks_no_flag_witness :
  (Backend.main {| port := 8080; chunk_size := -1; random := false; default_size := 4096 |}
     (fun _ => Byte.x00) (fun _ => true) (2 ^ 30) = Panicked /\
   Metrics.main {| port := 8080; chunk_size := -1; random := false; default_size := 4096 |}
     (fun _ => Byte.x00) (fun _ => true) (2 ^ 30) = Panicked) /\
  (Backend.main {| port := 8080; chunk_size := 2 ^ 40; random := false; default_size := 4096 |}
     (fun _ => Byte.x00) (fun _ => true) (2 ^ 30) = OutOfMemory /\
   Metrics.main {| port := 8080; chunk_size := 2 ^ 40; random := false; default_size := 4096 |}
     (fun _ => Byte.x00) (fun _ => true) (2 ^ 30) = OutOfMemory) /\
  (Backend.main {| port := 70000; chunk_size := 16; random := false; default_size := 4096 |}
     (fun _ => Byte.x00) (fun p => p <? 65536) (2 ^ 30) = ListenFailed /\
   Metrics.main {| port := 70000; chunk_size := 16; random := false; default_size := 4096 |}
     (fun _ => Byte.x00) (fun p => p <? 65536) (2 ^ 30) = ListenFailed) /\
  (exists s1 s2,
     Backend.main {| port := 8080; chunk_size := 0; random := true; default_size := -7 |}
       (fun _ => Byte.x00) (fun _ => true) (2 ^ 30) = Serving s1 /\
     Metrics.main {| port := 8080; chunk_size := 0; random := true; default_size := -7 |}
       (fun _ => Byte.x00) (fun _ => true) (2 ^ 30) = Serving s2 /\
     Go.len (Backend.payloadChunk s1) = 0 /\
     Go.len (Metrics.payloadChunk s2) = 0 /\
     Metrics.defaultDownloadSize s2 = -7).
Proof.
  split; [| split; [| split]].
  - apply (startup_checks_no_flag
             {| port := 8080; chunk_size := -1; random := false; default_size := 4096 |}
             (fun _ => Byte.x00) (fun _ => true) (2 ^ 30)).
    left. simpl. lia.
  - apply (startup_checks_no_flag
             {| port := 8080; chunk_size := 2 ^ 40; random := false; default_size := 4096 |}
             (fun _ => Byte.x00) (fun _ => true) (2 ^ 30)).
    + simpl. unfold Go.maxAlloc. lia.
    + simpl. lia.
  - apply (startup_checks_no_flag
             {| port := 70000; chunk_size := 16; random := false; default_size := 4096 |}
             (fun _ => Byte.x00) (fun p => p <? 65536) (2 ^ 30)).
    + simpl. unfold Go.maxAlloc. lia.
    + simpl. lia.
    + reflexivity.
  - apply (startup_checks_no_flag
             {| port := 8080; chunk_size := 0; random := true; default_size := -7 |}
             (fun _ => Byte.x00) (fun _ => true) (2 ^ 30)).
    + simpl. unfold Go.maxAlloc. lia.
    + simpl. lia.
    + reflexivity.
Defined.

(** C8, as the claim has it, fails for [-chunk-size=0]: both backends
    start and serve, and a download of one byte then writes empty
    slices for ever, whatever the fuel. *)
Lemma zero_chunk_size_is_served :
  let f := {| port := 8080; chunk_size := 0; random := false; default_size := 4096 |} in
  Backend.main f (fun _ => Byte.x00) (fun _ => true) (2 ^ 30) =
    Serving {| Backend.payloadChunk := [] |} /\
  Metrics.main f (fun _ => Byte.x00) (fun _ => true) (2 ^ 30) =
    Serving {| Metrics.payloadChunk := []; Metrics.defaultDownloadSize := 4096 |} /\
  (forall fuel,
     Backend.downloadHandler {| Backend.payloadChunk := [] |}
       fuel (request [("size", "1")] noBody) (Http.newWriter allOk) = None) /\
  (forall fuel,
     Metrics.downloadHandler
       {| Metrics.payloadChunk := []; Metrics.defaultDownloadSize := 4096 |}
       fuel (request [("size", "1")] noBody) (Http.newWriter allOk) = None).
Proof.
  split; [reflexivity|]. split; [reflexivity|].
  split; intros fuel.
  - unfold Backend.downloadHandler. simpl.
    apply streamLoop_empty_chunk; [reflexivity | reflexivity].
  - unfold Metrics.downloadHandler. simpl.
    apply metrics_serve_none, streamLoop_empty_chunk; [reflexivity | reflexivity].
Qed.

(** A negative [-default-size] is not caught either: the metrics
    backend starts, and a download without [size] sets the header
    [Content-Length: -7], writes nothing and panics when the counter is
    to take the negative size; the client is left without an answer. *)
Lemma negative_default_size_panics :
  exists w,
    Metrics.downloadHandler
      {| Metrics.payloadChunk := [Byte.x00]; Metrics.defaultDownloadSize := -7 |}
      1 (request [] noBody) (Http.newWriter allOk) = Some (Panics w) /\
    Http.status w = None /\
    Http.headerOf w "Content-Length" = Some "-7" /\
    Http.written w = [].
Proof. eexists. split; [reflexivity|]. repeat split. Qed.

(* ================================================================== *)
(** * The upload fan-out *)
(* ================================================================== *)

Section FanOut.

Variable segSize : Z.
Hypothesis segSize_nonneg : 0 <= segSize.

Lemma wrap64_small z : Go.minInt <= z <= Go.maxInt -> Go.wrap64 z = z.
Proof.
  unfold Go.wrap64, Go.minInt, Go.maxInt. intros H.
  rewrite Z.mod_small by lia. lia.
Qed.

Lemma okCount_bounds os : 0 <= okCount os <= Go.len os.
Proof.
  unfold okCount, Go.len. pose proof (filter_length_le succeeded os). lia.
Qed.

Lemma okCount_cons o os :
  okCount (o :: os) = (if succeeded o then 1 else 0) + okCount os.
Proof.
  unfold okCount. cbn [filter]. destruct (succeeded o); cbn [List.length]; lia.
Qed.

Lemma okCount_perm os os' : Permutation os os' -> okCount os = okCount os'.
Proof.
  intros P. induction P as [| x l l' _ IH | x y l | l l' l'' _ IH1 _ IH2].
  - reflexivity.
  - rewrite !okCount_cons, IH. reflexivity.
  - rewrite !okCount_cons. lia.
  - congruence.
Qed.

(** A stream that did not succeed leaves both counters alone. *)
Lemma uploadStream_failed o c :
  succeeded o = false -> Cli.uploadStream segSize o c = c.
Proof. destruct o as [| [e | r]]; [reflexivity | reflexivity | discriminate]. Qed.

(** Both counters hold [segSize] times the number of streams that have
    succeeded so far, starting from any such state. *)
Lemma fold_uploadStream os : forall a,
  0 <= a -> a + segSize * Go.len os <= Go.maxInt ->
  fold_left (fun c o => Cli.uploadStream segSize o c) os (a, a) =
  (a + segSize * okCount os, a + segSize * okCount os).
Proof.
  induction os as [| o os IH]; intros a Ha Hb.
  - unfold okCount. simpl. rewrite Z.mul_0_r, Z.add_0_r. reflexivity.
  - assert (Hl : Go.len (o :: os) = 1 + Go.len os) by (unfold Go.len; cbn [List.length]; lia).
    rewrite Hl in Hb. pose proof (okCount_bounds os) as B.
    rewrite okCount_cons. simpl fold_left.
    destruct (succeeded o) eqn:So.
    + destruct o as [| [e | r]]; try discriminate So.
      cbn [Cli.uploadStream fst snd].
      rewrite wrap64_small by (unfold Go.minInt; nia).
      rewrite IH by nia. f_equal; lia.
    + rewrite uploadStream_failed by exact So.
      rewrite IH by nia. f_equal; lia.
Qed.

Lemma joined_count os :
  segSize * Go.len os <= Go.maxInt ->
  Cli.joined segSize os = (segSize * okCount os, segSize * okCount os).
Proof.
  intros Hb. unfold Cli.joined. rewrite fold_uploadStream by lia. reflexivity.
Qed.

End FanOut.

Lemma okCount_all_ok (w : Cli.World) (n : nat) :
  (forall i, (i < n)%nat -> exists resp, Cli.post w i = Cli.Done (Cli.Ok resp)) ->
  okCount (map (Cli.post w) (seq 0 n)) = Z.of_nat n.
Proof.
  intros H. unfold okCount. f_equal.
  rewrite forallb_filter_id; [rewrite length_map, length_seq; reflexivity|].
  apply forallb_forall. intros o Ho. apply in_map_iff in Ho.
  destruct Ho as (i & <- & Hi). apply in_seq in Hi.
  destruct (H i) as (resp & ->); [lia | reflexivity].
Qed.

Lemma okCount_none_ok (w : Cli.World) (n : nat) :
  (forall i, succeeded (Cli.post w i) = false) ->
  okCount (map (Cli.post w) (seq 0 n)) = 0.
Proof.
  intros H. unfold okCount.
  replace (filter succeeded (map (Cli.post w) (seq 0 n))) with (@nil Cli.StreamOutcome);
    [reflexivity|].
  induction (seq 0 n) as [| i l IH]; simpl; [reflexivity|].
  rewrite H. exact IH.
Qed.

(** What [uploadTestCmdWith] delivers, in terms of the number of
    successful streams. *)
Lemma upload_deliveries (w : Cli.World) (total n : Z) :
  0 <= total <= Go.maxInt -> 1 <= n ->
  let seg := Z.quot total n in
  let sum := seg * okCount (map (Cli.post w) (seq 0 (Z.to_nat n))) in
  deliveries (Cli.uploadTestCmdWith total n) w =
  [ Some (Cli.uploadMsg sum (Cli.uploadElapsed w));
    (if sum >=? total then None else Some (Cli.progressMsg "upload" sum total)) ].
Proof.
  intros Ht Hn seg sum. unfold deliveries, Cli.uploadTestCmdWith.
  fold seg. rewrite joined_count.
  - fold sum. simpl. unfold Cli.makeProgressCmd.
    destruct (sum >=? total); reflexivity.
  - apply Z.quot_pos; lia.
  - unfold Go.len. rewrite length_map, length_seq, Z2Nat.id by lia.
    assert (0 <= seg) by (apply Z.quot_pos; lia).
    assert (seg * n <= total).
    { subst seg. rewrite Z.mul_comm. apply Z.mul_quot_le; lia. }
    lia.
Qed.



Lemma joined_withResponse segSize f os :
  Cli.joined segSize (map (withResponse f) os) = Cli.joined segSize os.
Proof.
  unfold Cli.joined. generalize (0, 0) as c.
  induction os as [| o os IH]; intros c; [reflexivity|].
  cbn [map fold_left]. rewrite IH. f_equal.
  destruct o as [| [e | r]]; reflexivity.
Qed.

Lemma acknowledged_within_succeeded os :
  Z.of_nat (List.length (filter acknowledged os)) <= okCount os.
Proof.
  unfold okCount. induction os as [| o os IH]; [reflexivity|].
  cbn [filter]. destruct o as [| [e | r]]; cbn [acknowledged succeeded]; try exact IH.
  destruct ((200 <=? Cli.StatusCode r) && (Cli.StatusCode r <? 300));
    cbn [List.length]; lia.
Qed.

(** C6, as the code has it.  A goroutine adds its full segment to the
    shared counters when [Do] returned without error, and nothing when
    the request could not be built or [Do] returned an error; what the
    response says, its status included, is not looked at.  So at every
    point of every order in which the goroutines may finish, and in
    particular after the join, the aggregate is the segment size times
    the number of streams that got a response: a multiple of the
    segment size, never a partial segment, the same whatever the
    responses are, and at least the segments the server accepted. *)
Theorem fanout_counts_answered_streams :
  forall (segSize : Z) (launched order : list Cli.StreamOutcome),
    0 <= segSize ->
    segSize * Go.len launched <= Go.maxInt ->
    Permutation launched order ->
    (forall k,
        Cli.joined segSize (firstn k order) =
        (segSize * okCount (firstn k order), segSize * okCount (firstn k order))) /\
    Cli.joined segSize order =
    (segSize * okCount launched, segSize * okCount launched) /\
    (forall f, Cli.joined segSize (map (withResponse f) order) =
               Cli.joined segSize order) /\
    segSize * Z.of_nat (List.length (filter acknowledged launched)) <=
    fst (Cli.joined segSize order).
Proof.
  intros segSize launched order Hs Hb P.
  assert (Hlen : Go.len order = Go.len launched).
  { unfold Go.len. rewrite (Permutation_length P). reflexivity. }
  assert (Hj : Cli.joined segSize order =
               (segSize * okCount launched, segSize * okCount launched)).
  { rewrite (okCount_perm _ _ P).
    apply joined_count; [assumption | rewrite Hlen; assumption]. }
  split; [| split; [| split]].
  - intros k. apply joined_count; [assumption|].
    assert (Go.len (firstn k order) <= Go.len order).
    { unfold Go.len. rewrite length_firstn. lia. }
    assert (0 <= Go.len (firstn k order)) by (unfold Go.len; lia).
    nia.
  - exact Hj.
  - intros f. apply joined_withResponse.
  - rewrite Hj. cbn [fst]. pose proof (acknowledged_within_succeeded launched). nia.
Qed.

Lemma fanout_counts_answered_streams_witness :
  let seg := 2621440 in
  let ok := Cli.Done (answer 200) in
  let unavailable := Cli.Done (answer 503) in
  let refused := Cli.Done (Cli.Err "connection refused") in
  (forall k,
      Cli.joined seg (firstn k [ok; unavailable; refused; ok]) =
      (seg * okCount (firstn k [ok; unavailable; refused; ok]),
       seg * okCount (firstn k [ok; unavailable; refused; ok]))) /\
  Cli.joined seg [ok; unavailable; refused; ok] =
  (seg * okCount [refused; ok; unavailable; ok],
   seg * okCount [refused; ok; unavailable; ok]) /\
  (forall f, Cli.joined seg (map (withResponse f) [ok; unavailable; refused; ok]) =
             Cli.joined seg [ok; unavailable; refused; ok]) /\
  seg * Z.of_nat (List.length (filter acknowledged [refused; ok; unavailable; ok])) <=
  fst (Cli.joined seg [ok; unavailable; refused; ok]).
Proof.
  intros seg ok unavailable refused.
  apply (fanout_counts_answered_streams seg
           [refused; ok; unavailable; ok] [ok; unavailable; refused; ok]).
  - subst seg. lia.
  - vm_compute. discriminate.
  - exact (Permutation_middle [ok; unavailable] [ok] refused).
Defined.

(** C6, as the claim has it, fails: a stream counts as soon as a
    response came back, successful or not.  With every upload answered
    503 no segment was accepted, and the command still reports the
    whole 100 MiB as transferred; with two of four segments accepted
    and two answered 500 it reports four. *)
Lemma error_status_is_counted_as_sent :
  let w := world (fun _ => answer 200) (fun _ => Cli.Done (answer 503)) in
  let os := [Cli.Done (answer 200); Cli.Done (answer 500);
             Cli.Done (answer 200); Cli.Done (answer 500)] in
  filter acknowledged (streamOutcomes w) = [] /\
  deliveries Cli.uploadTestCmd w =
  [Some (Cli.uploadMsg 104857600 (4 * Go.Second)); None] /\
  Z.of_nat (List.length (filter acknowledged os)) = 2 /\
  Cli.joined segment os = (4 * segment, 4 * segment).
Proof. vm_compute. repeat split; reflexivity. Qed.

(** The scenario of the specification: 10 MiB over 4 streams, the third
    connection refused.  7.5 MiB are confirmed, and the run goes on. *)
Lemma fanout_one_stream_refused :
  let w := world (fun _ => answer 200)
             (fun i => if Nat.eqb i 2 then Cli.Done (Cli.Err "connection refused")
                       else Cli.Done (answer 200)) in
  deliveries (Cli.uploadTestCmdWith (10 * 1024 * 1024) 4) w =
  [Some (Cli.uploadMsg 7864320 (4 * Go.Second));
   Some (Cli.progressMsg "upload" 7864320 10485760)].
Proof. vm_compute. reflexivity. Qed.

(* ================================================================== *)
(** * The driver *)
(* ================================================================== *)

Section Driver.

#[local] Arguments Nat.modulo : simpl never.
#[local] Arguments Go.float64 : simpl never.
#[local] Arguments Go.Seconds : simpl never.
#[local] Arguments Cli.uploadTestCmd : simpl never.
#[local] Arguments Cli.downloadTestCmd : simpl never.

(** The target of the bar stays within [0, 1]: a fraction above one is
    shown as a full bar, a negative one as an empty bar. *)
Lemma SetPercent_clamps :
  Cli.percent (Cli.SetPercent Cli.progress_New 0.5) = 0.5%float /\
  Cli.percent (Cli.SetPercent Cli.progress_New 2) = 1%float /\
  Cli.percent (Cli.SetPercent Cli.progress_New (-3)) = 0%float /\
  Cli.percent (Cli.SetPercent Cli.progress_New infinity) = 1%float.
Proof. vm_compute. repeat split; reflexivity. Qed.

Lemma pick_one n : (n mod 1 = 0)%nat.
Proof. apply Nat.mod_1_r. Qed.

Lemma pick_two n : (n mod 2 = 0 \/ n mod 2 = 1)%nat.
Proof. pose proof (Nat.mod_upper_bound n 2). lia. Qed.

(** A single pending [Quit] ends the loop at once. *)
Lemma loop_quit fuel step m w :
  Cli.eventLoop (S fuel) step m [Cli.Quit] w = Some (Cli.Quitted, m, w).
Proof. reflexivity. Qed.

(** One round of the loop with a single pending command. *)
Lemma loop_single fuel step m c w :
  Cli.eventLoop (S fuel) step m [c] w =
  match c w with
  | (None, w') => Cli.eventLoop fuel (S step) m [] w'
  | (Some Cli.QuitMsg, w') => Some (Cli.Quitted, m, w')
  | (Some (Cli.BatchMsg cmds), w') => Cli.eventLoop fuel (S step) m cmds w'
  | (Some msg, w') =>
      Cli.eventLoop fuel (S step) (fst (Cli.Update m msg))
        (Cli.enqueue [] (snd (Cli.Update m msg))) w'
  end.
Proof.
  cbn [Cli.eventLoop List.length]. rewrite pick_one.
  cbn [nth_error firstn skipn app].
  destruct (c w) as [[msg |] w']; [| reflexivity].
  destruct msg; try reflexivity;
    destruct (Cli.Update m _) as [m' c']; reflexivity.
Qed.

(** The two commands [uploadTestCmd] batches, once they are pending:
    whichever order the scheduler takes them in, the loop handles the
    [uploadMsg], moves to "done" and quits. *)
Lemma loop_upload_batch (tb dur counter total : Z) (ph : string) :
  forall (fuel step : nat) (m : Cli.model) (w : Cli.World),
    (3 <= fuel)%nat ->
    exists m',
      Cli.eventLoop fuel step m
        [ (fun w0 => (Some (Cli.uploadMsg tb dur), w0));
          Cli.makeProgressCmd counter total ph ] w = Some (Cli.Quitted, m', w) /\
      Cli.phase m' = "done" /\
      Cli.uploadSpeed m' = throughputMBps tb dur /\
      Cli.downloadSpeed m' = Cli.downloadSpeed m /\
      Cli.latency m' = Cli.latency m.
Proof.
  intros fuel step m w Hf.
  destruct fuel as [| [| [| fuel]]]; try lia.
  unfold Cli.makeProgressCmd.
  cbn [Cli.eventLoop List.length].
  destruct (pick_two (Cli.sched w step)) as [-> | ->]; cbn.
  - destruct (pick_two (Cli.sched w (S step))) as [-> | ->]; cbn.
    + destruct (counter >=? total); cbn.
      * eexists; repeat split.
      * destruct (total >? 0); eexists; repeat split.
    + eexists; repeat split.
  - destruct (counter >=? total); cbn.
    + eexists; repeat split.
    + destruct (total >? 0); eexists; repeat split.
Qed.

Lemma uploadTestCmd_batch w :
  exists tb counter w',
    Cli.uploadTestCmd w =
    (Some (Cli.BatchMsg
             [ (fun w0 => (Some (Cli.uploadMsg tb (Cli.uploadElapsed w)), w0));
               Cli.makeProgressCmd counter Cli.testSize "upload" ]), w') /\
    Cli.sched w' = Cli.sched w /\
    deliveries Cli.uploadTestCmd w =
    [ Some (Cli.uploadMsg tb (Cli.uploadElapsed w));
      fst (Cli.makeProgressCmd counter Cli.testSize "upload" w') ].
Proof.
  unfold deliveries, Cli.uploadTestCmd, Cli.uploadTestCmdWith.
  destruct (Cli.joined _ _) as [tb counter].
  eexists tb, counter, _. split; [reflexivity|]. split; reflexivity.
Qed.

(** C10.  The upload command never produces an [errorMsg]: started in
    any model, in any world and under any scheduling, the loop handles
    its [uploadMsg], lands in "done" and quits.  When every stream
    fails, that message carries 0 bytes and the reported speed is the
    throughput of 0 bytes. *)
Theorem upload_phase_never_errors :
  forall (w : Cli.World) (m : Cli.model) (fuel step : nat),
    (4 <= fuel)%nat ->
    (forall o e, In o (deliveries Cli.uploadTestCmd w) -> o <> Some (Cli.errorMsg e)) /\
    exists m' w',
      Cli.eventLoop fuel step m [Cli.uploadTestCmd] w = Some (Cli.Quitted, m', w') /\
      Cli.phase m' = "done" /\
      ((forall i, succeeded (Cli.post w i) = false) ->
       deliveries Cli.uploadTestCmd w =
       [ Some (Cli.uploadMsg 0 (Cli.uploadElapsed w));
         Some (Cli.progressMsg "upload" 0 Cli.testSize) ] /\
       Cli.uploadSpeed m' = throughputMBps 0 (Cli.uploadElapsed w)).
Proof.
  intros w m fuel step Hf.
  destruct (uploadTestCmd_batch w) as (tb & counter & w1 & E & Hs & D).
  split.
  - intros o e Ho. rewrite D in Ho. unfold Cli.makeProgressCmd in Ho.
    destruct Ho as [<- | [<- | []]]; [discriminate|].
    destruct (counter >=? Cli.testSize); discriminate.
  - destruct fuel as [| fuel]; [lia|].
    destruct (loop_upload_batch tb (Cli.uploadElapsed w) counter Cli.testSize "upload"
                fuel (S step) m w1 ltac:(lia)) as (m' & L & Hp & Hu & _).
    exists m', w1. split; [| split; [exact Hp|]].
    + cbn [Cli.eventLoop List.length]. rewrite pick_one. cbn. rewrite E. cbn. exact L.
    + intros Hfail.
      pose proof (upload_deliveries w Cli.testSize Cli.streams) as U.
      cbv zeta in U. fold Cli.uploadTestCmd in U.
      rewrite okCount_none_ok, Z.mul_0_r in U by exact Hfail.
      rewrite U in * by (unfold Cli.testSize, Cli.streams, Go.maxInt; lia).
      injection D as <- _. split; [reflexivity | exact Hu].
Qed.

Lemma upload_phase_never_errors_witness :
  let w := world (fun _ => answer 200)
             (fun _ => Cli.Done (Cli.Err "connection refused")) in
  (forall o e, In o (deliveries Cli.uploadTestCmd w) -> o <> Some (Cli.errorMsg e)) /\
  exists m' w',
    Cli.eventLoop 4 0 Cli.initialModel [Cli.uploadTestCmd] w = Some (Cli.Quitted, m', w') /\
    Cli.phase m' = "done" /\
    deliveries Cli.uploadTestCmd w =
    [ Some (Cli.uploadMsg 0 (Cli.uploadElapsed w));
      Some (Cli.progressMsg "upload" 0 Cli.testSize) ] /\
    Cli.uploadSpeed m' = throughputMBps 0 (Cli.uploadElapsed w).
Proof.
  intros w.
  destruct (upload_phase_never_errors w Cli.initialModel 4 0 ltac:(lia))
    as (H1 & m' & w' & H2 & H3 & H4).
  split; [exact H1|]. exists m', w'. split; [exact H2|]. split; [exact H3|].
  apply H4. intros i. reflexivity.
Defined.

(** C7, as the code has it.  A transport error of the ping request, or
    of the download request or of the reading of its body, takes the
    run to "error" and ends it: the ping was the only request in the
    first case, ping and download were the only ones in the second, and
    no upload was attempted. *)
Theorem transport_error_ends_run :
  forall (w : Cli.World) (fuel : nat),
    (3 <= fuel)%nat ->
    (forall e, Cli.get w (Cli.URL pingRequest) = Cli.Err e ->
       exists m w',
         Cli.Start fuel w = Some (Cli.Quitted, m, w') /\
         Cli.phase m = "error" /\
         Cli.issued w' = Cli.issued w ++ [pingRequest]) /\
    (forall r, Cli.get w (Cli.URL pingRequest) = Cli.Ok r ->
       (exists e, Cli.get w (Cli.URL downloadRequest) = Cli.Err e) \/
       (exists r', Cli.get w (Cli.URL downloadRequest) = Cli.Ok r' /\
                   Http.ending (Cli.Body r') = Http.ReadErr) ->
       exists m w',
         Cli.Start fuel w = Some (Cli.Quitted, m, w') /\
         Cli.phase m = "error" /\
         Cli.issued w' = Cli.issued w ++ [pingRequest; downloadRequest]).
Proof.
  intros w fuel Hf. destruct fuel as [| [| [| fuel]]]; try lia.
  assert (Hd : forall w0, Cli.downloadTestCmd w0 =
               (match Cli.get w0 (Cli.URL downloadRequest) with
                | Cli.Err e => Some (Cli.errorMsg e)
                | Cli.Ok resp =>
                    if snd (Http.Copy_Discard (Cli.Body resp))
                    then Some (Cli.errorMsg "read")
                    else Some (Cli.downloadMsg (fst (Http.Copy_Discard (Cli.Body resp)))
                                 (Cli.downloadElapsed w0))
                end, Cli.issue w0 [downloadRequest])).
  { intros w0. unfold Cli.downloadTestCmd, Cli.downloadTestCmdWith.
    change (String.append Cli.serverBase
              (String.append "/download?size=" (Go.Itoa Cli.testSize)))
      with (Cli.URL downloadRequest).
    destruct (Cli.get w0 (Cli.URL downloadRequest)) as [e | resp]; [reflexivity|].
    destruct (Http.Copy_Discard _) as [n []]; reflexivity. }
  assert (Hp : Cli.pingTestCmd w =
               (match Cli.get w (Cli.URL pingRequest) with
                | Cli.Err e => Some (Cli.errorMsg e)
                | Cli.Ok _ => Some (Cli.pingMsg (Cli.pingElapsed w))
                end, Cli.issue w [pingRequest])).
  { unfold Cli.pingTestCmd.
    change (String.append Cli.serverBase "/ping") with (Cli.URL pingRequest).
    destruct (Cli.get w (Cli.URL pingRequest)); reflexivity. }
  unfold Cli.Start. rewrite loop_single, Hp.
  split.
  - intros e He. rewrite He. cbn [Cli.Update fst snd Cli.enqueue app].
    rewrite loop_quit. eexists _, _. repeat split.
  - intros r Hr Hfail. rewrite Hr. cbn [Cli.Update fst snd Cli.enqueue app].
    rewrite loop_single.
    assert (Hd' : exists e, Cli.downloadTestCmd (Cli.issue w [pingRequest]) =
                     (Some (Cli.errorMsg e),
                      Cli.issue (Cli.issue w [pingRequest]) [downloadRequest])).
    { specialize (Hd (Cli.issue w [pingRequest])). cbn [Cli.issue Cli.get] in Hd.
      destruct Hfail as [(e & He) | (r' & Hr' & Hend)].
      - exists e. rewrite Hd, He. reflexivity.
      - exists "read". rewrite Hd, Hr'. unfold Http.Copy_Discard. rewrite Hend.
        reflexivity. }
    destruct Hd' as (e & ->). cbn [Cli.Update fst snd Cli.enqueue app].
    rewrite loop_quit. eexists _, _. repeat split.
    cbn [Cli.issue Cli.issued]. rewrite <- app_assoc. reflexivity.
Qed.

Lemma transport_error_ends_run_witness :
  (exists m w',
      Cli.Start 3 (world (fun _ => Cli.Err "connection refused")
                         (fun _ => Cli.Done (answer 200))) =
      Some (Cli.Quitted, m, w') /\
      Cli.phase m = "error" /\
      Cli.issued w' = [] ++ [pingRequest]) /\
  (exists m w',
      Cli.Start 3 (world (fun u => if String.eqb u (Cli.URL pingRequest)
                                   then answer 200 else Cli.Err "timeout")
                         (fun _ => Cli.Done (answer 200))) =
      Some (Cli.Quitted, m, w') /\
      Cli.phase m = "error" /\
      Cli.issued w' = [] ++ [pingRequest; downloadRequest]).
Proof.
  split.
  - apply (proj1 (transport_error_ends_run
             (world (fun _ => Cli.Err "connection refused")
                    (fun _ => Cli.Done (answer 200))) 3 ltac:(lia))
             "connection refused").
    reflexivity.
  - apply (proj2 (transport_error_ends_run
             (world (fun u => if String.eqb u (Cli.URL pingRequest)
                              then answer 200 else Cli.Err "timeout")
                    (fun _ => Cli.Done (answer 200))) 3 ltac:(lia))
             {| Cli.StatusCode := 200; Cli.Body := noBody |}).
    + reflexivity.
    + left. exists "timeout". reflexivity.
Defined.

(** C7, as the claim has it, fails twice.  A server that answers every
    request with 503 is measured to the end, all six requests are sent;
    and a server that refuses every upload connection still leaves the
    run in "done". *)
Lemma error_status_and_failed_uploads_reach_done :
  outcome (Cli.Start 6 (world (fun _ => answer 503) (fun _ => Cli.Done (answer 503)))) =
  Some (Cli.Quitted, "done",
        [ "http://localhost:8080/ping";
          "http://localhost:8080/download?size=104857600";
          "http://localhost:8080/upload"; "http://localhost:8080/upload";
          "http://localhost:8080/upload"; "http://localhost:8080/upload" ]) /\
  outcome (Cli.Start 6 (world (fun _ => answer 200)
                          (fun _ => Cli.Done (Cli.Err "connection refused")))) =
  Some (Cli.Quitted, "done",
        [ "http://localhost:8080/ping";
          "http://localhost:8080/download?size=104857600";
          "http://localhost:8080/upload"; "http://localhost:8080/upload";
          "http://localhost:8080/upload"; "http://localhost:8080/upload" ]).
Proof. split; vm_compute; reflexivity. Qed.

(** C5, as the code has it.  [Update] stores the throughput of a
    download or upload result by the formula, whatever the elapsed time,
    and moves on to the next phase; no other message touches the two
    speeds.  An elapsed time of zero is zero seconds, so the formula
    divides by zero. *)
Theorem throughput_formula_unguarded :
  forall (m : Cli.model) (bytes dur : Z),
    let d := fst (Cli.Update m (Cli.downloadMsg bytes dur)) in
    let u := fst (Cli.Update m (Cli.uploadMsg bytes dur)) in
    (Cli.downloadSpeed d = throughputMBps bytes dur /\ Cli.phase d = "upload" /\
     Cli.uploadSpeed d = Cli.uploadSpeed m) /\
    (Cli.uploadSpeed u = throughputMBps bytes dur /\ Cli.phase u = "done" /\
     Cli.downloadSpeed u = Cli.downloadSpeed m) /\
    (forall msg,
        match msg with
        | Cli.downloadMsg _ _ | Cli.uploadMsg _ _ => True
        | _ => Cli.downloadSpeed (fst (Cli.Update m msg)) = Cli.downloadSpeed m /\
               Cli.uploadSpeed (fst (Cli.Update m msg)) = Cli.uploadSpeed m
        end) /\
    Go.Seconds 0 = 0%float /\
    throughputMBps bytes 0 = (Go.float64 bytes / 0 / Go.float64 (1024 * 1024))%float.
Proof.
  intros m bytes dur d u. split; [| split; [| split; [| split]]].
  - repeat split.
  - repeat split.
  - intros [ | | | ph dn tot | | | ]; cbn; try exact I; try (split; reflexivity).
    destruct (tot >? 0); split; reflexivity.
  - vm_compute. reflexivity.
  - unfold throughputMBps.
    replace (Go.Seconds 0) with 0%float by (vm_compute; reflexivity).
    reflexivity.
Qed.

(** C5, as the claim has it, fails: a result with zero elapsed time is
    not an error.  One MiB in no time is an infinite download speed and
    the driver starts the upload; zero bytes in no time is not a number
    and the driver is done; and a whole run whose download took no time
    ends in "done". *)
Lemma zero_elapsed_is_not_an_error :
  let d := fst (Cli.Update Cli.initialModel (Cli.downloadMsg 1048576 0)) in
  let u := fst (Cli.Update Cli.initialModel (Cli.uploadMsg 0 0)) in
  (Cli.phase d = "upload" /\ Cli.downloadSpeed d = infinity) /\
  (Cli.phase u = "done" /\ PrimFloat.is_nan (Cli.uploadSpeed u) = true) /\
  option_map (fun r => (Cli.phase (snd (fst r)), Cli.downloadSpeed (snd (fst r))))
    (Cli.Start 6
       {| Cli.get := fun _ => Cli.Ok {| Cli.StatusCode := 200;
             Cli.Body := {| Http.reads := [[Byte.x00]]; Http.ending := Http.EOF |} |};
          Cli.post := fun _ => Cli.Done (answer 200);
          Cli.pingElapsed := 1; Cli.downloadElapsed := 0; Cli.uploadElapsed := 1;
          Cli.sched := fun _ => 0%nat; Cli.issued := [] |}) =
  Some ("done", infinity).
Proof. repeat split; vm_compute; reflexivity. Qed.

End Driver.

(* ================================================================== *)
(** * More on the download endpoint *)
(* ================================================================== *)

Lemma sendAll_cons w p ps : sendAll w (p :: ps) = sendAll (sendAll w [p]) ps.
Proof.
  unfold sendAll; simpl. rewrite <- app_assoc. simpl.
  f_equal; [| lia]. destruct ps, (Http.status w); reflexivity.
Qed.

Lemma Write_accepted w p :
  Http.wok w (Http.attempts w) = true -> Http.Write w p = (sendAll w [p], false).
Proof.
  intros H. unfold Http.Write. rewrite H. unfold sendAll. simpl.
  rewrite Nat.add_1_r. reflexivity.
Qed.

Lemma Write_refused w p :
  Http.wok w (Http.attempts w) = false ->
  snd (Http.Write w p) = true /\
  Http.written (fst (Http.Write w p)) = Http.written w /\
  Http.header (fst (Http.Write w p)) = Http.header w /\
  Http.attempts (fst (Http.Write w p)) = S (Http.attempts w) /\
  Http.status (fst (Http.Write w p)) =
    match Http.status w with None => Some Http.StatusOK | s => s end.
Proof. intros H. unfold Http.Write. rewrite H. repeat split. Qed.

Section WriteFailure.

Variable chunk : list byte.
Hypothesis chunk_nonempty : chunk <> [].

Lemma chunksOf_nonempty r : 0 <= r -> chunksOf chunk r <> [] -> 0 < r.
Proof.
  intros Hr Hne. destruct (Z.eq_dec r 0) as [-> | ]; [| lia].
  rewrite chunksOf_zero in Hne by assumption. congruence.
Qed.

(** The loop up to the first write the peer refuses: the writes before
    it went out, the refused one ends the handler. *)
Lemma streamLoop_refused k : forall fuel totalSize sent w,
  (forall j, (j < k)%nat -> Http.wok w (Http.attempts w + j) = true) ->
  Http.wok w (Http.attempts w + k) = false ->
  (k < List.length (chunksOf chunk (totalSize - sent)))%nat ->
  0 <= sent <= totalSize ->
  (k < fuel)%nat ->
  exists w',
    streamLoop fuel chunk totalSize sent w = Some w' /\
    Http.written w' = Http.written w ++ firstn k (chunksOf chunk (totalSize - sent)) /\
    Http.header w' = Http.header w /\
    Http.attempts w' = (Http.attempts w + S k)%nat /\
    Http.status w' = match Http.status w with None => Some Http.StatusOK | s => s end.
Proof.
  induction k as [| k IH]; intros fuel totalSize sent w Hok Hbad Hlen Hs Hf;
    (destruct fuel as [| fuel]; [lia|]);
    assert (Hr : 0 < totalSize - sent)
      by (apply chunksOf_nonempty; [lia | intros E; rewrite E in Hlen; simpl in Hlen; lia]);
    pose proof (chunksOf_step chunk chunk_nonempty (totalSize - sent) Hr) as St;
    cbv zeta in St; rewrite St in *;
    cbn [streamLoop]; (destruct (Z.ltb_spec sent totalSize) as [_ | ?]; [| lia]);
    set (n := if totalSize - sent >? Go.len chunk then Go.len chunk else totalSize - sent) in *.
  - rewrite Nat.add_0_r in Hbad.
    destruct (Write_refused w (Go.slice_to chunk n) Hbad) as (E & W & H & A & S').
    destruct (Http.Write w (Go.slice_to chunk n)) as [w1 err]. simpl in *. subst err.
    exists w1. rewrite W, H, A, S', app_nil_r, Nat.add_1_r. repeat split.
  - rewrite Write_accepted by (rewrite <- (Nat.add_0_r (Http.attempts w)); apply Hok; lia).
    assert (Hn : 0 < n <= totalSize - sent).
    { subst n. pose proof (chunk_pos chunk chunk_nonempty).
      destruct (Z.gtb_spec (totalSize - sent) (Go.len chunk)); lia. }
    destruct (IH fuel totalSize (sent + n) (sendAll w [Go.slice_to chunk n]))
      as (w' & E & W & H & A & S').
    + intros j Hj. simpl. rewrite <- Nat.add_assoc. apply Hok. simpl. lia.
    + simpl. rewrite <- Nat.add_assoc. exact Hbad.
    + replace (totalSize - (sent + n)) with (totalSize - sent - n) by lia.
      simpl in Hlen. lia.
    + lia.
    + lia.
    + exists w'. split; [exact E|].
      replace (totalSize - (sent + n)) with (totalSize - sent - n) in W by lia.
      rewrite W, H, A, S'. simpl. rewrite <- app_assoc. simpl.
      repeat split; [lia|]. destruct (Http.status w); reflexivity.
Qed.

(** The writes that precede the last expected one are whole chunks. *)
Lemma firstn_chunksOf k r :
  0 <= r -> (k < List.length (chunksOf chunk r))%nat ->
  firstn k (chunksOf chunk r) = repeat chunk k /\ Z.of_nat k * Go.len chunk < r.
Proof.
  intros Hr Hk. pose proof (chunk_pos chunk chunk_nonempty) as Hc.
  pose proof (chunksOf_count chunk chunk_nonempty r Hr) as Cnt.
  pose proof (Z.div_mod r (Go.len chunk) ltac:(lia)) as E.
  pose proof (Z.mod_pos_bound r (Go.len chunk) Hc) as B.
  pose proof (Z.div_pos r (Go.len chunk) Hr Hc) as D.
  assert (Hkn : Z.of_nat k <= r / Go.len chunk).
  { destruct (r mod Go.len chunk =? 0); lia. }
  split.
  - unfold chunksOf. rewrite firstn_app, repeat_length.
    replace (k - Z.to_nat (r / Go.len chunk))%nat with 0%nat by lia.
    rewrite firstn_O, app_nil_r.
    replace (Z.to_nat (r / Go.len chunk))
      with (k + (Z.to_nat (r / Go.len chunk) - k))%nat by lia.
    rewrite repeat_app, firstn_app, repeat_length, Nat.sub_diag, firstn_O, app_nil_r.
    rewrite firstn_all2 by (rewrite repeat_length; lia). reflexivity.
  - destruct (Z.eqb_spec (r mod Go.len chunk) 0); nia.
Qed.

End WriteFailure.

(** With any peer, any fuel and any chunk, what the loop has written
    when it returns are slices of the payload chunk, no more than the
    bytes that were still to be sent. *)
Lemma streamLoop_bounded (chunk : list byte) fuel : forall totalSize sent w w',
  streamLoop fuel chunk totalSize sent w = Some w' ->
  0 <= sent <= totalSize ->
  exists ps,
    Http.written w' = Http.written w ++ ps /\
    Forall (fun p => Go.len p <= Go.len chunk /\ p = Go.slice_to chunk (Go.len p)) ps /\
    Go.len (List.concat ps) <= totalSize - sent /\
    Http.header w' = Http.header w.
Proof.
  induction fuel as [| fuel IH]; intros totalSize sent w w' E Hs; [discriminate|].
  cbn [streamLoop] in E. destruct (Z.ltb_spec sent totalSize) as [Hlt | Hge].
  - set (n := if totalSize - sent >? Go.len chunk then Go.len chunk else totalSize - sent) in *.
    assert (Hn : 0 <= n <= totalSize - sent /\ n <= Go.len chunk).
    { subst n. unfold Go.len.
      destruct (Z.gtb_spec (totalSize - sent) (Z.of_nat (List.length chunk))); lia. }
    assert (Hp : Go.len (Go.slice_to chunk n) = n).
    { unfold Go.len, Go.slice_to in *. rewrite length_firstn. lia. }
    unfold Http.Write in E.
    destruct (Http.wok w (Http.attempts w)).
    + apply IH in E; [| simpl; lia]. destruct E as (ps & W & F & L & H).
      simpl in W, H. exists (Go.slice_to chunk n :: ps).
      rewrite W, <- app_assoc. split; [reflexivity|]. split; [| split; [| exact H]].
      * constructor; [| exact F]. rewrite Hp. split; [lia | reflexivity].
      * unfold Go.len in *. simpl. rewrite length_app. lia.
    + injection E as <-. exists []. simpl. rewrite app_nil_r.
      repeat split; [constructor | unfold Go.len; simpl; lia].
  - injection E as <-. exists []. rewrite app_nil_r.
    repeat split; [constructor | unfold Go.len; simpl; lia].
Qed.

(** X1.  A download whose [k]-th write is the first one the peer
    refuses returns right there, in both backends: the [k] writes before
    it went out and were whole chunks, nothing is retried or sent after,
    and the peer holds fewer bytes than the [Content-Length] it was
    promised under status 200. *)
Theorem download_aborts_on_refused_write :
  forall (chunk : list byte) (dflt : Z) (q : Http.Values) (size : Z)
         (ok : nat -> bool) (k fuel : nat),
    chunk <> [] ->
    Go.Atoi (Http.Get q "size") = Some size ->
    0 < size ->
    (forall j, (j < k)%nat -> ok j = true) ->
    ok k = false ->
    (k < List.length (chunksOf chunk size))%nat ->
    (k < fuel)%nat ->
    exists w,
      Backend.downloadHandler {| Backend.payloadChunk := chunk |}
        fuel (request q noBody) (Http.newWriter ok) = Some w /\
      Metrics.downloadHandler
        {| Metrics.payloadChunk := chunk; Metrics.defaultDownloadSize := dflt |}
        fuel (request q noBody) (Http.newWriter ok) = Some (Returns w) /\
      Http.status w = Some 200 /\
      Http.headerOf w "Content-Length" = Some (Go.Itoa size) /\
      Http.written w = repeat chunk k /\
      Http.attempts w = S k /\
      Go.len (Http.bodyBytes w) < size.
Proof.
  intros chunk dflt q size ok k fuel Hc Hp Hs Hok Hbad Hk Hf.
  pose proof (Atoi_nonempty _ _ Hp) as Hne.
  assert (Hle : (size <=? 0) = false) by (apply Z.leb_gt; exact Hs).
  destruct (streamLoop_refused chunk Hc k fuel size 0
              (Http.Set_ (Http.Set_ (Http.newWriter ok)
                            "Content-Type" "application/octet-stream")
                         "Content-Length" (Go.Itoa size)))
    as (w & E & W & H & A & S'); try (simpl; assumption); try lia.
  { rewrite Z.sub_0_r. exact Hk. }
  rewrite Z.sub_0_r in W. simpl in W, H, A, S'.
  destruct (firstn_chunksOf chunk Hc k size ltac:(lia) Hk) as [F B].
  rewrite F in W.
  exists w. split; [| split].
  - unfold Backend.downloadHandler. simpl. rewrite Hne, Hp, Hle. exact E.
  - unfold Metrics.downloadHandler. simpl. rewrite Hne, Hp, Hle.
    apply metrics_serve; [exact E | lia].
  - repeat split; try assumption.
    + unfold Http.headerOf. rewrite H. reflexivity.
    + unfold Http.bodyBytes, Go.len in *. rewrite W, length_concat_repeat. lia.
Qed.

Lemma download_aborts_on_refused_write_witness :
  exists w,
    Backend.downloadHandler {| Backend.payloadChunk := [Byte.x00; Byte.x00] |}
      2 (request [("size", "5")] noBody) (Http.newWriter (fun j => Nat.eqb j 0)) = Some w /\
    Metrics.downloadHandler
      {| Metrics.payloadChunk := [Byte.x00; Byte.x00]; Metrics.defaultDownloadSize := 9 |}
      2 (request [("size", "5")] noBody) (Http.newWriter (fun j => Nat.eqb j 0)) = Some (Returns w) /\
    Http.status w = Some 200 /\
    Http.headerOf w "Content-Length" = Some (Go.Itoa 5) /\
    Http.written w = repeat [Byte.x00; Byte.x00] 1 /\
    Http.attempts w = 2%nat /\
    Go.len (Http.bodyBytes w) < 5.
Proof.
  apply (download_aborts_on_refused_write [Byte.x00; Byte.x00] 9 [("size", "5")] 5
           (fun j => Nat.eqb j 0) 1 2).
  - discriminate.
  - reflexivity.
  - lia.
  - intros j Hj. assert (j = 0%nat) as -> by lia. reflexivity.
  - reflexivity.
  - vm_compute. lia.
  - lia.
Defined.

(** X2.  Whatever the peer does and whenever the handler returns, a
    download of a valid size has put on the wire only slices of the one
    payload chunk, each at most a chunk long, and never more bytes in
    all than the [Content-Length] it announced. *)
Theorem download_writes_only_payload_slices :
  forall (chunk : list byte) (dflt : Z) (q : Http.Values) (size : Z)
         (ok : nat -> bool) (fuel : nat) (w : Http.ResponseWriter),
    Go.Atoi (Http.Get q "size") = Some size ->
    0 < size ->
    Backend.downloadHandler {| Backend.payloadChunk := chunk |}
      fuel (request q noBody) (Http.newWriter ok) = Some w \/
    Metrics.downloadHandler
      {| Metrics.payloadChunk := chunk; Metrics.defaultDownloadSize := dflt |}
      fuel (request q noBody) (Http.newWriter ok) = Some (Returns w) ->
    Forall (fun p => Go.len p <= Go.len chunk /\ p = Go.slice_to chunk (Go.len p))
           (Http.written w) /\
    Go.len (Http.bodyBytes w) <= size /\
    Http.headerOf w "Content-Length" = Some (Go.Itoa size).
Proof.
  intros chunk dflt q size ok fuel w Hp Hs Hret.
  pose proof (Atoi_nonempty _ _ Hp) as Hne.
  assert (Hle : (size <=? 0) = false) by (apply Z.leb_gt; exact Hs).
  assert (E : streamLoop fuel chunk size 0
                (Http.Set_ (Http.Set_ (Http.newWriter ok)
                              "Content-Type" "application/octet-stream")
                           "Content-Length" (Go.Itoa size)) = Some w).
  { destruct Hret as [E | E];
      [unfold Backend.downloadHandler in E | unfold Metrics.downloadHandler in E];
      simpl in E; rewrite Hne, Hp, Hle in E;
      [exact E | apply metrics_serve_returns in E; exact E]. }
  apply streamLoop_bounded in E; [| lia].
  destruct E as (ps & W & F & L & H). simpl in W, H.
  unfold Http.bodyBytes, Http.headerOf. rewrite W, H.
  split; [exact F|]. split; [lia | reflexivity].
Qed.

Lemma download_writes_only_payload_slices_witness :
  Forall (fun p => Go.len p <= Go.len [Byte.x01; Byte.x02] /\
                   p = Go.slice_to [Byte.x01; Byte.x02] (Go.len p))
         [[Byte.x01; Byte.x02]; [Byte.x01]] /\
  Go.len (List.concat [[Byte.x01; Byte.x02]; [Byte.x01]]) <= 3 /\
  Some "3" = Some (Go.Itoa 3).
Proof.
  apply (download_writes_only_payload_slices [Byte.x01; Byte.x02] 9 [("size", "3")] 3
           allOk 3
           {| Http.header := [("Content-Type", "application/octet-stream");
                              ("Content-Length", "3")];
              Http.status := Some 200;
              Http.written := [[Byte.x01; Byte.x02]; [Byte.x01]];
              Http.attempts := 2; Http.wok := allOk |}).
  - reflexivity.
  - lia.
  - left. reflexivity.
Defined.

(** X3.  With an empty payload chunk a download of any valid size makes
    no progress: as long as the peer accepts the (empty) writes the
    handler never returns, in either backend. *)
Theorem download_empty_chunk_never_returns :
  forall (dflt : Z) (q : Http.Values) (size : Z) (fuel : nat),
    Go.Atoi (Http.Get q "size") = Some size ->
    0 < size ->
    Backend.downloadHandler {| Backend.payloadChunk := [] |}
      fuel (request q noBody) (Http.newWriter allOk) = None /\
    Metrics.downloadHandler
      {| Metrics.payloadChunk := []; Metrics.defaultDownloadSize := dflt |}
      fuel (request q noBody) (Http.newWriter allOk) = None.
Proof.
  intros dflt q size fuel Hp Hs.
  pose proof (Atoi_nonempty _ _ Hp) as Hne.
  assert (Hle : (size <=? 0) = false) by (apply Z.leb_gt; exact Hs).
  split.
  - unfold Backend.downloadHandler. simpl. rewrite Hne, Hp, Hle.
    apply streamLoop_empty_chunk; [reflexivity | exact Hs].
  - unfold Metrics.downloadHandler. simpl. rewrite Hne, Hp, Hle.
    apply metrics_serve_none, streamLoop_empty_chunk; [reflexivity | exact Hs].
Qed.

Lemma download_empty_chunk_never_returns_witness :
  Backend.downloadHandler {| Backend.payloadChunk := [] |}
    1000 (request [("size", "+7")] noBody) (Http.newWriter allOk) = None /\
  Metrics.downloadHandler
    {| Metrics.payloadChunk := []; Metrics.defaultDownloadSize := 4096 |}
    1000 (request [("size", "+7")] noBody) (Http.newWriter allOk) = None.
Proof.
  apply (download_empty_chunk_never_returns 4096 [("size", "+7")] 7 1000).
  - reflexivity.
  - lia.
Defined.

(** X4.  When the [size] parameter is absent or empty, the metrics
    backend serves its configured default, if that is positive: status
    200, the default as [Content-Length], exactly that many bytes, in
    as many writes as the default holds chunks, rounded up. *)
Theorem metrics_default_download :
  forall (chunk : list byte) (dflt : Z) (q : Http.Values) (fuel : nat),
    chunk <> [] ->
    Http.Get q "size" = "" ->
    0 < dflt ->
    (Z.to_nat dflt < fuel)%nat ->
    exists w,
      Metrics.downloadHandler
        {| Metrics.payloadChunk := chunk; Metrics.defaultDownloadSize := dflt |}
        fuel (request q noBody) (Http.newWriter allOk) = Some (Returns w) /\
      served chunk dflt w /\
      Z.of_nat (List.length (Http.written w)) =
      dflt / Go.len chunk + (if dflt mod Go.len chunk =? 0 then 0 else 1).
Proof.
  intros chunk dflt q fuel Hc Hq Hd Hf.
  destruct (serve_exact chunk dflt fuel Hc Hd Hf) as (w & E & S).
  exists w. split; [| split; [exact S|]].
  - unfold Metrics.downloadHandler. simpl. rewrite Hq.
    apply metrics_serve; [exact E | lia].
  - destruct S as (_ & _ & W & _). rewrite W.
    apply chunksOf_count; [exact Hc | lia].
Qed.

Lemma metrics_default_download_witness :
  exists w,
    Metrics.downloadHandler
      {| Metrics.payloadChunk := [Byte.x00; Byte.x00]; Metrics.defaultDownloadSize := 3 |}
      4 (request [("other", "1"); ("size", "")] noBody) (Http.newWriter allOk) = Some (Returns w) /\
    served [Byte.x00; Byte.x00] 3 w /\
    Z.of_nat (List.length (Http.written w)) =
    3 / Go.len [Byte.x00; Byte.x00] +
    (if 3 mod Go.len [Byte.x00; Byte.x00] =? 0 then 0 else 1).
Proof.
  apply (metrics_default_download [Byte.x00; Byte.x00] 3 [("other", "1"); ("size", "")] 4).
  - discriminate.
  - reflexivity.
  - lia.
  - simpl; lia.
Defined.

(** X5.  When the [size] parameter is absent or empty and the configured
    default is zero or negative, the metrics backend does not reject the
    request: it announces the default as [Content-Length], never enters
    the loop and so writes nothing and sets no status.  With a default
    of zero the handler then returns, and the server answers 200 with an
    empty body; with a negative default the addition to the download
    counter panics, and the handler does not return. *)
Theorem metrics_nonpositive_default :
  forall (chunk : list byte) (dflt : Z) (q : Http.Values) (ok : nat -> bool) (fuel : nat),
    Http.Get q "size" = "" ->
    dflt <= 0 ->
    (0 < fuel)%nat ->
    exists w,
      Metrics.downloadHandler
        {| Metrics.payloadChunk := chunk; Metrics.defaultDownloadSize := dflt |}
        fuel (request q noBody) (Http.newWriter ok) =
      Some (if dflt <? 0 then Panics w else Returns w) /\
      Http.status w = None /\
      Http.headerOf w "Content-Length" = Some (Go.Itoa dflt) /\
      Http.written w = [] /\
      Http.attempts w = 0%nat /\
      wireOf (if dflt <? 0 then Panics w else Returns w) =
      (if dflt <? 0 then Cli.Err "EOF"
       else Cli.Ok {| Cli.StatusCode := 200;
                      Cli.Body := {| Http.reads := []; Http.ending := Http.EOF |} |}).
Proof.
  intros chunk dflt q ok fuel Hq Hd Hf. destruct fuel as [| fuel]; [lia|].
  unfold Metrics.downloadHandler. simpl. rewrite Hq. simpl.
  destruct (Z.ltb_spec 0 dflt); [lia|].
  unfold Add_panics.
  eexists. split; [destruct (dflt <? 0); reflexivity|]. repeat split.
  destruct (Z.ltb_spec dflt 0); [reflexivity|].
  assert (dflt = 0) by lia. subst dflt. reflexivity.
Qed.

Lemma metrics_nonpositive_default_witness :
  (exists w,
    Metrics.downloadHandler
      {| Metrics.payloadChunk := [Byte.x00]; Metrics.defaultDownloadSize := -7 |}
      1 (request [] noBody) (Http.newWriter allOk) =
    Some (if -7 <? 0 then Panics w else Returns w) /\
    Http.status w = None /\
    Http.headerOf w "Content-Length" = Some (Go.Itoa (-7)) /\
    Http.written w = [] /\
    Http.attempts w = 0%nat /\
    wireOf (if -7 <? 0 then Panics w else Returns w) =
    (if -7 <? 0 then Cli.Err "EOF"
     else Cli.Ok {| Cli.StatusCode := 200;
                    Cli.Body := {| Http.reads := []; Http.ending := Http.EOF |} |})) /\
  (exists w,
    Metrics.downloadHandler
      {| Metrics.payloadChunk := [Byte.x00]; Metrics.defaultDownloadSize := 0 |}
      1 (request [] noBody) (Http.newWriter allOk) =
    Some (if 0 <? 0 then Panics w else Returns w) /\
    Http.status w = None /\
    Http.headerOf w "Content-Length" = Some (Go.Itoa 0) /\
    Http.written w = [] /\
    Http.attempts w = 0%nat /\
    wireOf (if 0 <? 0 then Panics w else Returns w) =
    (if 0 <? 0 then Cli.Err "EOF"
     else Cli.Ok {| Cli.StatusCode := 200;
                    Cli.Body := {| Http.reads := []; Http.ending := Http.EOF |} |})).
Proof.
  split.
  - apply (metrics_nonpositive_default [Byte.x00] (-7) [] allOk 1).
    + reflexivity.
    + lia.
    + lia.
  - apply (metrics_nonpositive_default [Byte.x00] 0 [] allOk 1).
    + reflexivity.
    + lia.
    + lia.
Defined.

(* ================================================================== *)
(** * More on the upload endpoint *)
(* ================================================================== *)

(** X6.  The status of an upload answer tells how the body ended: 200
    after [io.EOF], 500 after any other read error, in both backends
    and even when the answer itself cannot be written.  After a read
    error the answer is the same whatever had been read: the bytes
    counted so far are not reported. *)
Theorem upload_status_tells_read_outcome :
  forall (reads reads' : list (list byte)) (e : Http.ReadEnd) (q : Http.Values)
         (ok : nat -> bool),
    let r := request q {| Http.reads := reads; Http.ending := e |} in
    Backend.uploadHandler r (Http.newWriter ok) =
    Metrics.uploadHandler r (Http.newWriter ok) /\
    Http.status (Backend.uploadHandler r (Http.newWriter ok)) =
      Some (match e with Http.EOF => 200 | Http.ReadErr => 500 end) /\
    (e = Http.ReadErr ->
     Backend.uploadHandler r (Http.newWriter ok) =
     Backend.uploadHandler (request q {| Http.reads := reads'; Http.ending := e |})
       (Http.newWriter ok) /\
     Http.bodyBytes (Backend.uploadHandler r (Http.newWriter ok)) =
     (if ok 0%nat
      then list_byte_of_string (String.append "error reading body" (String "010" EmptyString))
      else [])).
Proof.
  intros reads reads' e q ok r. split; [reflexivity|]. split.
  - destruct e; unfold Backend.uploadHandler, Http.Error, Http.Write; simpl;
      destruct (ok 0%nat); reflexivity.
  - intros ->. split; [reflexivity|].
    unfold Backend.uploadHandler, Http.Error, Http.Write, Http.bodyBytes; simpl.
    destruct (ok 0%nat); reflexivity.
Qed.

(* ================================================================== *)
(** * A whole measurement *)
(* ================================================================== *)

Section Measurement.

#[local] Arguments Nat.modulo : simpl never.
#[local] Arguments Go.float64 : simpl never.
#[local] Arguments Go.Seconds : simpl never.
#[local] Arguments Cli.uploadTestCmd : simpl never.
#[local] Arguments Cli.downloadTestCmd : simpl never.
#[local] Arguments Cli.pingTestCmd : simpl never.

Lemma pingTestCmd_eq w :
  Cli.pingTestCmd w =
  (match Cli.get w (Cli.URL pingRequest) with
   | Cli.Err e => Some (Cli.errorMsg e)
   | Cli.Ok _ => Some (Cli.pingMsg (Cli.pingElapsed w))
   end, Cli.issue w [pingRequest]).
Proof.
  unfold Cli.pingTestCmd.
  change (String.append Cli.serverBase "/ping") with (Cli.URL pingRequest).
  destruct (Cli.get w (Cli.URL pingRequest)); reflexivity.
Qed.

Lemma downloadTestCmd_eq w :
  Cli.downloadTestCmd w =
  (match Cli.get w (Cli.URL downloadRequest) with
   | Cli.Err e => Some (Cli.errorMsg e)
   | Cli.Ok resp =>
       match Http.ending (Cli.Body resp) with
       | Http.ReadErr => Some (Cli.errorMsg "read")
       | Http.EOF =>
           Some (Cli.downloadMsg (Go.len (List.concat (Http.reads (Cli.Body resp))))
                   (Cli.downloadElapsed w))
       end
   end, Cli.issue w [downloadRequest]).
Proof.
  unfold Cli.downloadTestCmd, Cli.downloadTestCmdWith.
  change (String.append Cli.serverBase
            (String.append "/download?size=" (Go.Itoa Cli.testSize)))
    with (Cli.URL downloadRequest).
  destruct (Cli.get w (Cli.URL downloadRequest)) as [e | resp]; [reflexivity|].
  unfold Http.Copy_Discard. destruct (Http.ending (Cli.Body resp)); reflexivity.
Qed.

Lemma uploadTestCmd_eq w :
  Cli.uploadTestCmd w =
  (Some (Cli.BatchMsg
           [ (fun w0 => (Some (Cli.uploadMsg (confirmed w) (Cli.uploadElapsed w)), w0));
             Cli.makeProgressCmd (confirmed w) Cli.testSize "upload" ]),
   Cli.issue w (Cli.uploadsSent segment (streamOutcomes w))).
Proof.
  unfold Cli.uploadTestCmd, Cli.uploadTestCmdWith.
  fold segment. fold (streamOutcomes w).
  rewrite joined_count.
  - reflexivity.
  - vm_compute. discriminate.
  - unfold streamOutcomes, Go.len. rewrite length_map, length_seq.
    vm_compute. discriminate.
Qed.

Lemma confirmed_bounds w : 0 <= confirmed w <= Cli.testSize.
Proof.
  unfold confirmed. pose proof (okCount_bounds (streamOutcomes w)) as B.
  assert (Go.len (streamOutcomes w) = 4) as E.
  { unfold streamOutcomes, Go.len. rewrite length_map, length_seq. reflexivity. }
  rewrite E in B. change segment with 26214400. change Cli.testSize with 104857600.
  lia.
Qed.

(** The batch of [uploadTestCmd] under any scheduling, with what it does
    to every field of the model. *)
Lemma loop_upload_batch_model (tb dur counter total : Z) (ph : string) :
  forall (fuel step : nat) (m : Cli.model) (w : Cli.World),
    (3 <= fuel)%nat ->
    exists m',
      Cli.eventLoop fuel step m
        [ (fun w0 => (Some (Cli.uploadMsg tb dur), w0));
          Cli.makeProgressCmd counter total ph ] w = Some (Cli.Quitted, m', w) /\
      Cli.phase m' = "done" /\
      Cli.uploadSpeed m' = throughputMBps tb dur /\
      Cli.downloadSpeed m' = Cli.downloadSpeed m /\
      Cli.latency m' = Cli.latency m /\
      (total <= counter -> Cli.progress m' = Cli.progress m) /\
      (Cli.progress m' = Cli.progress m \/
       Cli.progress m' =
       Cli.SetPercent (Cli.progress m) (Go.float64 counter / Go.float64 total)%float).
Proof.
  intros fuel step m w Hf.
  destruct fuel as [| [| [| fuel]]]; try lia.
  unfold Cli.makeProgressCmd.
  cbn [Cli.eventLoop List.length].
  destruct (pick_two (Cli.sched w step)) as [-> | ->]; cbn.
  - destruct (pick_two (Cli.sched w (S step))) as [-> | ->]; cbn.
    + destruct (Z.geb_spec counter total); cbn.
      * eexists; repeat split. left; reflexivity.
      * destruct (total >? 0); eexists; repeat split; try lia;
          (left; reflexivity) || (right; reflexivity).
    + eexists; repeat split. left; reflexivity.
  - destruct (Z.geb_spec counter total); cbn.
    + eexists; repeat split. left; reflexivity.
    + destruct (total >? 0); eexists; repeat split; try lia;
        (left; reflexivity) || (right; reflexivity).
Qed.

Lemma sameOutside_issue w rs : sameOutside w (Cli.issue w rs).
Proof. repeat split. Qed.

Lemma sameOutside_trans w1 w2 w3 :
  sameOutside w1 w2 -> sameOutside w2 w3 -> sameOutside w1 w3.
Proof.
  unfold sameOutside. intros (A1 & A2 & A3 & A4 & A5 & A6) (B1 & B2 & B3 & B4 & B5 & B6).
  repeat split; congruence.
Qed.

(** The measurement started by [pingTestCmd], from any model and at any
    step of the scheduler: how it ends and what it leaves behind. *)
Lemma run_measurement (fuel step : nat) (m : Cli.model) (w : Cli.World) :
  (6 <= fuel)%nat ->
  exists m' w',
    Cli.eventLoop fuel step m [Cli.pingTestCmd] w = Some (Cli.Quitted, m', w') /\
    sameOutside w w' /\
    (if transportFailure w
     then Cli.phase m' = "error" /\
          Cli.downloadSpeed m' = Cli.downloadSpeed m /\
          Cli.uploadSpeed m' = Cli.uploadSpeed m /\
          Cli.Width (Cli.progress m') = 0 /\
          exists k, Cli.issued w' = Cli.issued w ++ firstn k [pingRequest; downloadRequest]
     else Cli.phase m' = "done" /\
          Cli.latency m' = Cli.pingElapsed w /\
          Cli.downloadSpeed m' = throughputMBps (downloaded w) (Cli.downloadElapsed w) /\
          Cli.uploadSpeed m' = throughputMBps (confirmed w) (Cli.uploadElapsed w) /\
          Cli.issued w' = Cli.issued w ++ measurementRequests w /\
          (confirmed w = Cli.testSize -> Cli.progress m' = Cli.progress m)).
Proof.
  intros Hf.
  destruct fuel as [| [| [| fuel]]]; try lia.
  unfold transportFailure, downloaded.
  rewrite loop_single, pingTestCmd_eq.
  destruct (Cli.get w (Cli.URL pingRequest)) as [e | r1].
  - cbn [Cli.Update fst snd Cli.enqueue app]. rewrite loop_quit.
    eexists _, _. split; [reflexivity|]. split; [apply sameOutside_issue|].
    repeat split. exists 1%nat. reflexivity.
  - cbn [Cli.Update fst snd Cli.enqueue app].
    rewrite loop_single, downloadTestCmd_eq.
    cbn [Cli.issue Cli.get Cli.downloadElapsed].
    destruct (Cli.get w (Cli.URL downloadRequest)) as [e | r2].
    + cbn [Cli.Update fst snd Cli.enqueue app]. rewrite loop_quit.
      eexists _, _. split; [reflexivity|]. split; [repeat split|].
      repeat split. exists 2%nat. cbn [Cli.issue Cli.issued firstn].
      rewrite <- app_assoc. reflexivity.
    + destruct (Http.ending (Cli.Body r2)).
      * cbn [Cli.Update fst snd Cli.enqueue app].
        rewrite loop_single, uploadTestCmd_eq.
        set (w2 := Cli.issue (Cli.issue w [pingRequest]) [downloadRequest]).
        assert (Hc : confirmed w2 = confirmed w) by reflexivity.
        assert (Ho : streamOutcomes w2 = streamOutcomes w) by reflexivity.
        rewrite Hc, Ho.
        match goal with
        | |- context [Cli.eventLoop ?f ?s ?m0 _ ?w0] =>
            destruct (loop_upload_batch_model (confirmed w) (Cli.uploadElapsed w2)
                        (confirmed w) Cli.testSize "upload" f s m0 w0 ltac:(lia))
              as (m' & L & Hp & Hu & Hd & Hl & Hpr & _)
        end.
        exists m'. eexists. split; [exact L|]. split; [repeat split|].
        split; [exact Hp|]. split; [exact Hl|]. split; [exact Hd|].
        split; [exact Hu|]. split.
        -- subst w2. unfold measurementRequests. cbn [Cli.issue Cli.issued].
           rewrite <- !app_assoc. reflexivity.
        -- intros E. rewrite Hpr by lia. reflexivity.
      * cbn [Cli.Update fst snd Cli.enqueue app]. rewrite loop_quit.
        eexists _, _. split; [reflexivity|]. split; [repeat split|].
        repeat split. exists 2%nat. cbn [Cli.issue Cli.issued firstn].
        rewrite <- app_assoc. reflexivity.
Qed.

End Measurement.



(** X8.  A run without transport error in ping and download reports the
    ping reading as latency, the throughput of the bytes it read from
    the download body (whatever the status of that response) and the
    throughput of the bytes the upload confirmed; it has sent the ping,
    the download and one POST per upload stream, in this order; and if
    every stream succeeded the progress bar is as it was at the start:
    no progress message was ever handled. *)
Theorem run_without_transport_error :
  forall (w : Cli.World) (fuel : nat),
    (6 <= fuel)%nat ->
    transportFailure w = false ->
    exists m w',
      Cli.Start fuel w = Some (Cli.Quitted, m, w') /\
      Cli.latency m = Cli.pingElapsed w /\
      Cli.downloadSpeed m = throughputMBps (downloaded w) (Cli.downloadElapsed w) /\
      Cli.uploadSpeed m = throughputMBps (confirmed w) (Cli.uploadElapsed w) /\
      Cli.issued w' = Cli.issued w ++ measurementRequests w /\
      (confirmed w = Cli.testSize -> Cli.progress m = Cli.progress_New).
Proof.
  intros w fuel Hf Hok.
  destruct (run_measurement fuel 0 Cli.initialModel w Hf) as (m & w' & E & _ & R).
  rewrite Hok in R. destruct R as (_ & Hl & Hd & Hu & Hi & Hp).
  exists m, w'. repeat split; assumption.
Qed.

Lemma run_without_transport_error_witness :
  let w := world (fun _ => Cli.Ok {| Cli.StatusCode := 400;
                                     Cli.Body := {| Http.reads := [invalidSizeText];
                                                    Http.ending := Http.EOF |} |})
                 (fun i => if Nat.eqb i 0 then Cli.NewRequestErr else Cli.Done (answer 200)) in
  exists m w',
    Cli.Start 6 w = Some (Cli.Quitted, m, w') /\
    Cli.latency m = Cli.pingElapsed w /\
    Cli.downloadSpeed m = throughputMBps (downloaded w) (Cli.downloadElapsed w) /\
    Cli.uploadSpeed m = throughputMBps (confirmed w) (Cli.uploadElapsed w) /\
    Cli.issued w' = Cli.issued w ++ measurementRequests w /\
    (confirmed w = Cli.testSize -> Cli.progress m = Cli.progress_New).
Proof.
  intros w. apply (run_without_transport_error w 6).
  - lia.
  - reflexivity.
Defined.

(* ================================================================== *)
(** * More on the upload fan-out *)
(* ================================================================== *)

Lemma attempted_bounds (seg : Z) (os : list Cli.StreamOutcome) :
  0 <= seg ->
  seg * okCount os <= attempted (Cli.uploadsSent seg os) <= seg * Go.len os.
Proof.
  intros Hs. induction os as [| o os IH].
  - unfold okCount, attempted, Go.len. simpl. lia.
  - rewrite okCount_cons.
    assert (Go.len (o :: os) = 1 + Go.len os) as -> by (unfold Go.len; cbn [List.length]; lia).
    unfold attempted in *. cbn [Cli.uploadsSent flat_map].
    rewrite map_app, fold_right_app.
    destruct o as [| [e | r]]; cbn [succeeded map fold_right app Cli.ContentLength];
      fold (Cli.uploadsSent seg os); nia.
Qed.

Lemma uploadsSent_list (w : Cli.World) (seg : Z) (l : list nat) :
  (forall i, In i l -> Cli.post w i <> Cli.NewRequestErr) ->
  Cli.uploadsSent seg (map (Cli.post w) l) =
  repeat {| Cli.Method := "POST"; Cli.URL := "http://localhost:8080/upload";
            Cli.ContentLength := seg |} (List.length l).
Proof.
  intros Hin. induction l as [| i l IH]; [reflexivity|].
  unfold Cli.uploadsSent in *. cbn [map flat_map List.length repeat].
  rewrite IH by (intros j Hj; apply Hin; right; exact Hj).
  destruct (Cli.post w i) eqn:E; [exfalso; apply (Hin i); [left; reflexivity | exact E]|].
  reflexivity.
Qed.

Lemma uploadsSent_all (w : Cli.World) (seg : Z) (n : nat) :
  (forall i, (i < n)%nat -> Cli.post w i <> Cli.NewRequestErr) ->
  Cli.uploadsSent seg (map (Cli.post w) (seq 0 n)) =
  repeat {| Cli.Method := "POST"; Cli.URL := "http://localhost:8080/upload";
            Cli.ContentLength := seg |} n.
Proof.
  intros H. rewrite uploadsSent_list, length_seq; [reflexivity|].
  intros i Hi. apply in_seq in Hi. apply H. lia.
Qed.

(** X9.  When the total does not divide by the number of streams, the
    remainder is neither sent nor counted: with every stream succeeding,
    each of the [n] requests carries [total / n] bytes (rounded down),
    the upload result is the total less the remainder, and the progress
    tick still finds the counter short of the total. *)
Theorem fanout_drops_remainder :
  forall (w : Cli.World) (n total : Z),
    1 <= n ->
    0 <= total <= Go.maxInt ->
    (forall i, (i < Z.to_nat n)%nat ->
               exists resp, Cli.post w i = Cli.Done (Cli.Ok resp)) ->
    deliveries (Cli.uploadTestCmdWith total n) w =
    [ Some (Cli.uploadMsg (total - Z.rem total n) (Cli.uploadElapsed w));
      (if Z.rem total n =? 0 then None
       else Some (Cli.progressMsg "upload" (total - Z.rem total n) total)) ] /\
    Cli.issued (snd (Cli.uploadTestCmdWith total n w)) =
    Cli.issued w ++
    repeat {| Cli.Method := "POST"; Cli.URL := "http://localhost:8080/upload";
              Cli.ContentLength := Z.quot total n |} (Z.to_nat n).
Proof.
  intros w n total Hn Ht Hok.
  pose proof (Z.quot_rem' total n) as QR.
  pose proof (Z.rem_bound_pos total n ltac:(lia) ltac:(lia)) as RB.
  split.
  - rewrite upload_deliveries by lia. cbv zeta.
    rewrite okCount_all_ok by exact Hok. rewrite Z2Nat.id by lia.
    replace (Z.quot total n * n) with (total - Z.rem total n) by lia.
    f_equal. f_equal.
    destruct (Z.eqb_spec (Z.rem total n) 0) as [E | E].
    + rewrite E, Z.sub_0_r. destruct (Z.geb_spec total total); [reflexivity | lia].
    + destruct (Z.geb_spec (total - Z.rem total n) total); [lia | reflexivity].
  - unfold Cli.uploadTestCmdWith.
    destruct (Cli.joined _ _) as [tb counter]. cbn [Cli.Batch snd Cli.issue Cli.issued].
    rewrite uploadsSent_all; [reflexivity|].
    intros i Hi. destruct (Hok i Hi) as (resp & ->). discriminate.
Qed.

Lemma fanout_drops_remainder_witness :
  let w := world (fun _ => answer 200) (fun _ => Cli.Done (answer 200)) in
  deliveries (Cli.uploadTestCmdWith 10 4) w =
  [ Some (Cli.uploadMsg (10 - Z.rem 10 4) (Cli.uploadElapsed w));
    (if Z.rem 10 4 =? 0 then None
     else Some (Cli.progressMsg "upload" (10 - Z.rem 10 4) 10)) ] /\
  Cli.issued (snd (Cli.uploadTestCmdWith 10 4 w)) =
  Cli.issued w ++
  repeat {| Cli.Method := "POST"; Cli.URL := "http://localhost:8080/upload";
            Cli.ContentLength := Z.quot 10 4 |} (Z.to_nat 4).
Proof.
  intros w. apply (fanout_drops_remainder w 4 10).
  - lia.
  - unfold Go.maxInt. lia.
  - intros i _. eexists. reflexivity.
Defined.

(** X10.  Whatever happens to the streams, the upload never reports more
    than it sent, nor more than the total: the confirmed bytes are a
    whole number of segments, at most the bytes announced by the
    requests that went out, which are at most the total. *)
Theorem fanout_confirmed_within_attempted :
  forall (w : Cli.World) (n total : Z),
    1 <= n ->
    0 <= total <= Go.maxInt ->
    let seg := Z.quot total n in
    let os := map (Cli.post w) (seq 0 (Z.to_nat n)) in
    exists b,
      deliveries (Cli.uploadTestCmdWith total n) w =
      [ Some (Cli.uploadMsg b (Cli.uploadElapsed w));
        (if b >=? total then None else Some (Cli.progressMsg "upload" b total)) ] /\
      b = seg * okCount os /\
      0 <= b <= attempted (Cli.uploadsSent seg os) /\
      attempted (Cli.uploadsSent seg os) <= total /\
      Cli.issued (snd (Cli.uploadTestCmdWith total n w)) =
      Cli.issued w ++ Cli.uploadsSent seg os.
Proof.
  intros w n total Hn Ht seg os.
  assert (Hseg : 0 <= seg) by (apply Z.quot_pos; lia).
  pose proof (Z.quot_rem' total n) as QR.
  pose proof (Z.rem_bound_pos total n ltac:(lia) ltac:(lia)) as RB.
  pose proof (attempted_bounds seg os Hseg) as AB.
  pose proof (okCount_bounds os) as OB.
  assert (Hl : Go.len os = n).
  { subst os. unfold Go.len. rewrite length_map, length_seq. lia. }
  exists (seg * okCount os). split; [| split; [reflexivity | split; [| split]]].
  - rewrite upload_deliveries by lia. reflexivity.
  - nia.
  - rewrite Hl in AB. fold seg in QR. nia.
  - unfold Cli.uploadTestCmdWith. fold seg. fold os.
    destruct (Cli.joined seg os) as [tb counter]. reflexivity.
Qed.

Lemma fanout_confirmed_within_attempted_witness :
  let w := world (fun _ => answer 200)
             (fun i => if Nat.eqb i 1 then Cli.NewRequestErr
                       else if Nat.eqb i 2 then Cli.Done (Cli.Err "timeout")
                       else Cli.Done (answer 200)) in
  let seg := Z.quot 10 4 in
  let os := map (Cli.post w) (seq 0 (Z.to_nat 4)) in
  exists b,
    deliveries (Cli.uploadTestCmdWith 10 4) w =
    [ Some (Cli.uploadMsg b (Cli.uploadElapsed w));
      (if b >=? 10 then None else Some (Cli.progressMsg "upload" b 10)) ] /\
    b = seg * okCount os /\
    0 <= b <= attempted (Cli.uploadsSent seg os) /\
    attempted (Cli.uploadsSent seg os) <= 10 /\
    Cli.issued (snd (Cli.uploadTestCmdWith 10 4 w)) =
    Cli.issued w ++ Cli.uploadsSent seg os.
Proof.
  intros w.
  apply (fanout_confirmed_within_attempted w 4 10).
  - lia.
  - unfold Go.maxInt. lia.
Defined.

(* ================================================================== *)
(** * The client against a backend *)
(* ================================================================== *)

Section EndToEnd.

#[local] Arguments zeros : simpl never.
#[local] Arguments Go.float64 : simpl never.
#[local] Arguments Go.Seconds : simpl never.

Lemma zeros_len n : 0 <= n -> Go.len (zeros n) = n.
Proof. intros H. unfold Go.len, zeros. rewrite repeat_length. lia. Qed.

(** What either upload handler answers to one segment. *)
Lemma upload_segment_answer :
  Backend.uploadHandler (request [] segmentBody) (Http.newWriter allOk) =
  Metrics.uploadHandler (request [] segmentBody) (Http.newWriter allOk) /\
  wire (Backend.uploadHandler (request [] segmentBody) (Http.newWriter allOk)) =
  {| Cli.StatusCode := 200;
     Cli.Body := {| Http.reads := [list_byte_of_string "received 26214400 bytes"];
                    Http.ending := Http.EOF |} |}.
Proof.
  split; [reflexivity|].
  unfold Backend.uploadHandler, Http.Copy_Discard, segmentBody.
  cbn [Http.ReqBody request Http.reads Http.ending List.concat].
  rewrite app_nil_r, zeros_len by (vm_compute; discriminate).
  vm_compute. reflexivity.
Qed.

Lemma wire_served chunk size w :
  Go.minInt <= size <= Go.maxInt -> 0 <= size ->
  served chunk size w ->
  wire w = {| Cli.StatusCode := 200;
              Cli.Body := {| Http.reads := chunksOf chunk size;
                             Http.ending := Http.EOF |} |}.
Proof.
  intros Hr Hs (St & Hh & W & L). unfold wire, Http.finalStatus.
  rewrite St, Hh, W, Atoi_Itoa, L, Z.eqb_refl by exact Hr.
  rewrite andb_false_r. reflexivity.
Qed.

Lemma handlers_download chunk dflt sfuel h wd :
  h = backend {| Backend.payloadChunk := chunk |} \/
  h = metrics {| Metrics.payloadChunk := chunk; Metrics.defaultDownloadSize := dflt |} ->
  streamLoop sfuel chunk Cli.testSize 0
    (Http.Set_ (Http.Set_ (Http.newWriter allOk)
                  "Content-Type" "application/octet-stream")
               "Content-Length" (Go.Itoa Cli.testSize)) = Some wd ->
  onDownload h sfuel (request [("size", Go.Itoa Cli.testSize)] noBody)
    (Http.newWriter allOk) = Some (Returns wd) /\
  onPing h (Http.newWriter allOk) = Backend.pingHandler (Http.newWriter allOk) /\
  onUpload h = Backend.uploadHandler.
Proof.
  intros [-> | ->] E; (split; [| split; reflexivity]).
  - change (option_map Returns
              (streamLoop sfuel chunk Cli.testSize 0
                 (Http.Set_ (Http.Set_ (Http.newWriter allOk)
                               "Content-Type" "application/octet-stream")
                            "Content-Length" (Go.Itoa Cli.testSize))) =
            Some (Returns wd)).
    rewrite E. reflexivity.
  - change (match streamLoopTo sfuel chunk Cli.testSize 0
                    (Http.Set_ (Http.Set_ (Http.newWriter allOk)
                                  "Content-Type" "application/octet-stream")
                               "Content-Length" (Go.Itoa Cli.testSize)) with
            | None => None
            | Some (w', false) => Some (Returns w')
            | Some (w', true) =>
                if Add_panics Cli.testSize then Some (Panics w') else Some (Returns w')
            end = Some (Returns wd)).
    apply metrics_serve; [exact E | vm_compute; discriminate].
Qed.

(** X11.  The client run against either backend, with a non-empty
    payload chunk and connections that take every write: the download
    handler serves the 100 MiB the client asks for, each of the four
    upload handlers counts the 25 MiB it is sent, and the run ends in
    "done" having measured exactly [testSize] bytes in both directions,
    after six requests and without any progress message. *)
Theorem client_against_backend :
  forall (chunk : list byte) (dflt : Z) (h : Handlers) (sfuel fuel : nat)
         (pingE dlE ulE : Z) (sched : nat -> nat),
    chunk <> [] ->
    h = backend {| Backend.payloadChunk := chunk |} \/
    h = metrics {| Metrics.payloadChunk := chunk; Metrics.defaultDownloadSize := dflt |} ->
    (Z.to_nat Cli.testSize < sfuel)%nat ->
    (6 <= fuel)%nat ->
    exists w m w',
      servedBy h sfuel pingE dlE ulE sched = Some w /\
      Cli.get w (Cli.URL downloadRequest) =
        Cli.Ok {| Cli.StatusCode := 200;
                  Cli.Body := {| Http.reads := chunksOf chunk Cli.testSize;
                                 Http.ending := Http.EOF |} |} /\
      (forall i, Cli.post w i =
         Cli.Done (Cli.Ok {| Cli.StatusCode := 200;
                    Cli.Body := {| Http.reads :=
                                     [list_byte_of_string "received 26214400 bytes"];
                                   Http.ending := Http.EOF |} |})) /\
      Cli.Start fuel w = Some (Cli.Quitted, m, w') /\
      Cli.phase m = "done" /\
      Cli.latency m = pingE /\
      Cli.downloadSpeed m = throughputMBps Cli.testSize dlE /\
      Cli.uploadSpeed m = throughputMBps Cli.testSize ulE /\
      Cli.progress m = Cli.progress_New /\
      List.length (Cli.issued w') = 6%nat.
Proof.
  intros chunk dflt h sfuel fuel pingE dlE ulE sched Hc Hh Hsf Hf.
  destruct (serve_exact chunk Cli.testSize sfuel Hc ltac:(reflexivity) Hsf)
    as (wd & E & S).
  destruct (handlers_download chunk dflt sfuel h wd Hh E) as (Hd & Hp & Hu).
  assert (Hw : wire wd = {| Cli.StatusCode := 200;
                            Cli.Body := {| Http.reads := chunksOf chunk Cli.testSize;
                                           Http.ending := Http.EOF |} |}).
  { apply wire_served; [| | exact S]; vm_compute; intuition discriminate. }
  destruct upload_segment_answer as [_ Hup].
  unfold servedBy. rewrite Hd, Hp, Hu. cbn [wireOf]. rewrite Hw, Hup.
  match goal with |- exists w m w', Some ?W = Some w /\ _ => set (w := W) end.
  assert (Htf : transportFailure w = false) by reflexivity.
  assert (Hdl : downloaded w = Cli.testSize).
  { change (downloaded w) with (Go.len (List.concat (chunksOf chunk Cli.testSize))).
    apply chunksOf_total; [exact Hc | vm_compute; discriminate]. }
  assert (Hcf : confirmed w = Cli.testSize) by reflexivity.
  destruct (run_measurement fuel 0 Cli.initialModel w Hf) as (m & w' & R & _ & F).
  rewrite Htf, Hdl, Hcf in F. destruct F as (F1 & F2 & F3 & F4 & F5 & F6).
  exists w, m, w'. split; [reflexivity|]. split; [reflexivity|].
  split; [intros i; reflexivity|]. split; [exact R|].
  repeat split; try assumption.
  - apply F6. reflexivity.
  - rewrite F5. reflexivity.
Qed.

Lemma client_against_backend_witness :
  exists w m w',
    servedBy (metrics {| Metrics.payloadChunk := zeros 65536;
                         Metrics.defaultDownloadSize := 10485760 |})
      (S (Z.to_nat Cli.testSize)) 20000000 2000000000 4000000000
      (fun _ => 1%nat) = Some w /\
    Cli.get w (Cli.URL downloadRequest) =
      Cli.Ok {| Cli.StatusCode := 200;
                Cli.Body := {| Http.reads := chunksOf (zeros 65536) Cli.testSize;
                               Http.ending := Http.EOF |} |} /\
    (forall i, Cli.post w i =
       Cli.Done (Cli.Ok {| Cli.StatusCode := 200;
                  Cli.Body := {| Http.reads :=
                                   [list_byte_of_string "received 26214400 bytes"];
                                 Http.ending := Http.EOF |} |})) /\
    Cli.Start 6 w = Some (Cli.Quitted, m, w') /\
    Cli.phase m = "done" /\
    Cli.latency m = 20000000 /\
    Cli.downloadSpeed m = throughputMBps Cli.testSize 2000000000 /\
    Cli.uploadSpeed m = throughputMBps Cli.testSize 4000000000 /\
    Cli.progress m = Cli.progress_New /\
    List.length (Cli.issued w') = 6%nat.
Proof.
  apply (client_against_backend (zeros 65536) 10485760 _ _ 6).
  - discriminate.
  - right. reflexivity.
  - lia.
  - lia.
Defined.

End EndToEnd.

(* ================================================================== *)
(** * The entry point of the client *)
(* ================================================================== *)

Section EntryPoint.

#[local] Arguments Nat.modulo : simpl never.
#[local] Arguments Go.float64 : simpl never.
#[local] Arguments Go.Seconds : simpl never.
#[local] Arguments Cli.eventLoop : simpl never.

Lemma sameOutside_measurement w w' :
  sameOutside w w' ->
  transportFailure w' = transportFailure w /\
  measurementRequests w' = measurementRequests w.
Proof.
  intros (G & P & _). unfold transportFailure, measurementRequests, streamOutcomes.
  rewrite G, P. split; reflexivity.
Qed.

(** [Run] of a program that meets no terminal error: the measurement,
    from whatever model it starts. *)
Lemma Run_measurement fuel m w :
  (6 <= fuel)%nat ->
  exists w',
    CliMain.Run None fuel m w = Some (None, w') /\
    sameOutside w w' /\
    (exists m', Cli.eventLoop fuel 0 m [Cli.pingTestCmd] w = Some (Cli.Quitted, m', w')) /\
    (transportFailure w = false ->
     Cli.issued w' = Cli.issued w ++ measurementRequests w).
Proof.
  intros Hf.
  destruct (run_measurement fuel 0 m w Hf) as (m' & w' & E & So & R).
  exists w'. unfold CliMain.Run. rewrite E.
  split; [reflexivity|]. split; [exact So|]. split; [exists m'; reflexivity|].
  intros Hok. rewrite Hok in R. apply R.
Qed.

(** X12.  Called with two or more arguments of which the first is a
    help or version command, the client shows neither help nor version:
    the screen of the model it starts is empty, that model runs a whole
    measurement, and a second measurement follows.  On a network without
    transport errors the twelve requests of two measurements are sent
    and the exit status is 0. *)
Theorem main_help_measures_twice :
  forall (args : list string) (fuel : nat) (w : Cli.World)
         (progressView : Cli.ProgressModel -> string)
         (results : Z -> float -> float -> string),
    (2 < List.length args)%nat ->
    In (nth 1 args "") ["help"; "--help"; "-h"; "version"; "--version"; "-v"] ->
    (6 <= fuel)%nat ->
    transportFailure w = false ->
    exists p,
      CliMain.main args None None fuel w = Some p /\
      CliMain.exitCode p = 0 /\
      CliMain.stdout p = [] /\
      Cli.issued (CliMain.after p) =
        Cli.issued w ++ measurementRequests w ++ measurementRequests w /\
      CliMain.View progressView results (CliMain.withPhase Cli.initialModel "help") = "" /\
      CliMain.View progressView results (CliMain.withPhase Cli.initialModel "version") = "".
Proof.
  intros args fuel w pv res Hlen Hcmd Hf Hok.
  assert (Hl : (2 <? List.length args)%nat = true) by (apply Nat.ltb_lt; exact Hlen).
  assert (Hfirst : forall m, exists p,
             match CliMain.Run None fuel m w with
             | None => None
             | Some (Some e, w1) =>
                 Some {| CliMain.stdout := [String.append "Error: " e];
                         CliMain.exitCode := 1; CliMain.after := w1 |}
             | Some (None, w1) =>
                 match CliMain.Run None fuel Cli.initialModel w1 with
                 | None => None
                 | Some (Some e, w2) =>
                     Some {| CliMain.stdout :=
                               [String.append "Error running program: "
                                  (String.append e CliMain.newline)];
                             CliMain.exitCode := 1; CliMain.after := w2 |}
                 | Some (None, w2) =>
                     Some {| CliMain.stdout := []; CliMain.exitCode := 0;
                             CliMain.after := w2 |}
                 end
             end = Some p /\
             CliMain.exitCode p = 0 /\ CliMain.stdout p = [] /\
             Cli.issued (CliMain.after p) =
             Cli.issued w ++ measurementRequests w ++ measurementRequests w).
  { intros m.
    destruct (Run_measurement fuel m w Hf) as (w1 & R1 & S1 & _ & I1).
    destruct (sameOutside_measurement w w1 S1) as [T1 M1].
    destruct (Run_measurement fuel Cli.initialModel w1 Hf) as (w2 & R2 & _ & _ & I2).
    rewrite R1, R2. eexists. split; [reflexivity|].
    cbn [CliMain.exitCode CliMain.stdout CliMain.after].
    split; [reflexivity|]. split; [reflexivity|].
    rewrite I2 by congruence. rewrite I1 by exact Hok.
    rewrite M1, <- app_assoc. reflexivity. }
  assert (Hmain : exists p,
             CliMain.main args None None fuel w = Some p /\
             CliMain.exitCode p = 0 /\ CliMain.stdout p = [] /\
             Cli.issued (CliMain.after p) =
             Cli.issued w ++ measurementRequests w ++ measurementRequests w).
  { unfold CliMain.main. rewrite Hl.
    simpl in Hcmd.
    destruct Hcmd as [<- | [<- | [<- | [<- | [<- | [<- | []]]]]]];
      cbn [String.eqb Ascii.eqb Bool.eqb orb andb]; apply Hfirst. }
  destruct Hmain as (p & E & C & O & I). exists p. repeat split; assumption.
Qed.

Lemma main_help_measures_twice_witness :
  let w := world (fun _ => answer 204) (fun _ => Cli.Done (answer 204)) in
  exists p,
    CliMain.main ["speedtest"; "--help"; "now"] None None 6 w = Some p /\
    CliMain.exitCode p = 0 /\
    CliMain.stdout p = [] /\
    Cli.issued (CliMain.after p) =
      Cli.issued w ++ measurementRequests w ++ measurementRequests w /\
    CliMain.View (fun _ => "") (fun _ _ _ => "results")
      (CliMain.withPhase Cli.initialModel "help") = "" /\
    CliMain.View (fun _ => "") (fun _ _ _ => "results")
      (CliMain.withPhase Cli.initialModel "version") = "".
Proof.
  intros w.
  apply (main_help_measures_twice ["speedtest"; "--help"; "now"] 6 w).
  - simpl. lia.
  - simpl. right; left; reflexivity.
  - lia.
  - reflexivity.
Defined.

(** X13.  Called with at most one argument, the client does not look at
    it: [speedtest help] is one measurement like plain [speedtest].  If
    the terminal works the exit status is 0 and [main] prints nothing,
    also when the measurement ended in "error". *)
Theorem main_single_argument_ignored :
  forall (args : list string) (fuel : nat) (w : Cli.World),
    (List.length args <= 2)%nat ->
    (6 <= fuel)%nat ->
    exists m w',
      Cli.Start fuel w = Some (Cli.Quitted, m, w') /\
      Cli.phase m = (if transportFailure w then "error" else "done") /\
      CliMain.main args None None fuel w =
      Some {| CliMain.stdout := []; CliMain.exitCode := 0; CliMain.after := w' |}.
Proof.
  intros args fuel w Hlen Hf.
  assert (Hl : (2 <? List.length args)%nat = false) by (apply Nat.ltb_ge; exact Hlen).
  destruct (run_measurement fuel 0 Cli.initialModel w Hf) as (m & w' & E & _ & R).
  exists m, w'. split; [exact E|]. split.
  - destruct (transportFailure w); apply R.
  - unfold CliMain.main, CliMain.Run. rewrite Hl, E. reflexivity.
Qed.

Lemma main_single_argument_ignored_witness :
  let w := world (fun _ => Cli.Err "connection refused") (fun _ => Cli.Done (answer 200)) in
  exists m w',
    Cli.Start 6 w = Some (Cli.Quitted, m, w') /\
    Cli.phase m = (if transportFailure w then "error" else "done") /\
    CliMain.main ["speedtest"; "help"] None None 6 w =
    Some {| CliMain.stdout := []; CliMain.exitCode := 0; CliMain.after := w' |}.
Proof.
  intros w. apply (main_single_argument_ignored ["speedtest"; "help"] 6 w).
  - simpl. lia.
  - lia.
Defined.

(** X14.  Called with two or more arguments of which the first is no
    known command, the client prints two lines and exits with status 1
    before any program is started: no request is sent. *)
Theorem main_unknown_command :
  forall (args : list string) (err1 err2 : option string) (fuel : nat) (w : Cli.World),
    (2 < List.length args)%nat ->
    ~ In (nth 1 args "") ["help"; "--help"; "-h"; "version"; "--version"; "-v"] ->
    CliMain.main args err1 err2 fuel w =
    Some {| CliMain.stdout :=
              [ String.append "Unknown command: "
                  (String.append (nth 1 args "") CliMain.newline);
                String.append "Use 'speedtest help' for usage information" CliMain.newline ];
            CliMain.exitCode := 1;
            CliMain.after := w |}.
Proof.
  intros args err1 err2 fuel w Hlen Hcmd.
  assert (Hl : (2 <? List.length args)%nat = true) by (apply Nat.ltb_lt; exact Hlen).
  unfold CliMain.main. rewrite Hl. cbv zeta.
  assert (N : forall s, In s ["help"; "--help"; "-h"; "version"; "--version"; "-v"] ->
                        String.eqb (nth 1 args "") s = false).
  { intros s Hs. destruct (String.eqb_spec (nth 1 args "") s) as [E | _]; [| reflexivity].
    exfalso. apply Hcmd. rewrite E. exact Hs. }
  rewrite !N by (simpl; tauto). reflexivity.
Qed.

Lemma main_unknown_command_witness :
  CliMain.main ["speedtest"; "servers"; "eu"] None None 0
    (world (fun _ => answer 200) (fun _ => Cli.Done (answer 200))) =
  Some {| CliMain.stdout :=
            [ String.append "Unknown command: "
                (String.append (nth 1 ["speedtest"; "servers"; "eu"] "") CliMain.newline);
              String.append "Use 'speedtest help' for usage information" CliMain.newline ];
          CliMain.exitCode := 1;
          CliMain.after := world (fun _ => answer 200) (fun _ => Cli.Done (answer 200)) |}.
Proof.
  apply (main_unknown_command ["speedtest"; "servers"; "eu"] None None 0).
  - simpl. lia.
  - simpl. intros H. repeat (destruct H as [H | H]; [discriminate H|]). exact H.
Defined.

End EntryPoint.

(* ================================================================== *)
(** * The placeholder client and the one-shot client *)
(* ================================================================== *)

Section OtherClients.

#[local] Arguments Nat.modulo : simpl never.
#[local] Arguments Go.float64 : simpl never.
#[local] Arguments Go.Seconds : simpl never.

Lemma placeholder_single fuel step m c w :
  Placeholder.eventLoop (S fuel) step m [c] w =
  match c w with
  | (None, w') => Placeholder.eventLoop fuel (S step) m [] w'
  | (Some Cli.QuitMsg, w') => Some (Cli.Quitted, m, w')
  | (Some (Cli.BatchMsg cmds), w') => Placeholder.eventLoop fuel (S step) m cmds w'
  | (Some msg, w') =>
      Placeholder.eventLoop fuel (S step) (fst (Placeholder.Update m msg))
        (Cli.enqueue [] (snd (Placeholder.Update m msg))) w'
  end.
Proof.
  cbn [Placeholder.eventLoop List.length]. rewrite pick_one.
  cbn [nth_error firstn skipn app].
  destruct (c w) as [[msg |] w']; [| reflexivity].
  destruct msg; try reflexivity;
    destruct (Placeholder.Update m _) as [m' c']; reflexivity.
Qed.

(** X15.  The placeholder client sends nothing and never quits: after
    the three sleeping commands it is in "done" with the ping reading
    as latency and the throughput of a nominal 10 MiB in each
    direction, nothing is pending, and the loop waits. *)
Theorem placeholder_waits_in_done :
  forall (w : Cli.World) (fuel : nat),
    (4 <= fuel)%nat ->
    exists m,
      Placeholder.Start fuel w = Some (Cli.Waiting, m, w) /\
      Cli.phase m = "done" /\
      Cli.latency m = Cli.pingElapsed w /\
      Cli.downloadSpeed m = throughputMBps (10 * 1024 * 1024) (Cli.downloadElapsed w) /\
      Cli.uploadSpeed m = throughputMBps (10 * 1024 * 1024) (Cli.uploadElapsed w).
Proof.
  intros w fuel Hf. destruct fuel as [| [| [| [| fuel]]]]; try lia.
  unfold Placeholder.Start.
  rewrite placeholder_single. cbn [Placeholder.pingTestCmd Placeholder.Update fst snd Cli.enqueue app].
  rewrite placeholder_single. cbn [Placeholder.downloadTestCmd Placeholder.Update fst snd Cli.enqueue app].
  rewrite placeholder_single. cbn [Placeholder.uploadTestCmd Placeholder.Update fst snd Cli.enqueue app].
  eexists. split; [reflexivity|]. repeat split.
Qed.

Lemma placeholder_waits_in_done_witness :
  let w := world (fun _ => Cli.Err "no server") (fun _ => Cli.NewRequestErr) in
  exists m,
    Placeholder.Start 4 w = Some (Cli.Waiting, m, w) /\
    Cli.phase m = "done" /\
    Cli.latency m = Cli.pingElapsed w /\
    Cli.downloadSpeed m = throughputMBps (10 * 1024 * 1024) (Cli.downloadElapsed w) /\
    Cli.uploadSpeed m = throughputMBps (10 * 1024 * 1024) (Cli.uploadElapsed w).
Proof.
  intros w. apply (placeholder_waits_in_done w 4). lia.
Defined.

(** X16.  The one-shot client prints its three figures exactly when the
    download request came back with a response, the size is one that
    [make] accepts and the system grants, and the upload request could
    be built; in every other case it stops after the ping and the
    download request, without an upload: with the fatal error "out of
    memory" when the size is in range but more than the system grants,
    with a panic otherwise.  What it prints ignores every error and
    status: the latency is the ping reading even if the ping failed,
    the download figure counts whatever body was read, and the upload
    figure is the configured size over the elapsed time whether or not
    the upload arrived. *)
Theorem simple_client_outcome :
  forall (server : string) (size : Z) (n : SimpleClient.Net),
    let pingURL := String.append server "/ping" in
    let downloadURL :=
      String.append server (String.append "/download?size=" (Go.Itoa size)) in
    match SimpleClient.main server size n with
    | (SimpleClient.Printed l d u, urls) =>
        (exists resp,
            SimpleClient.get n downloadURL = Some resp /\
            d = (Go.float64 (Go.len (List.concat (Http.reads (Cli.Body resp))))
                 / Go.Seconds (SimpleClient.downloadTime n)
                 / Go.float64 1024 / Go.float64 1024)%float) /\
        0 <= size <= Go.maxAlloc /\
        size <= SimpleClient.memory n /\
        SimpleClient.newRequestOk n = true /\
        l = SimpleClient.pingTime n /\
        u = (Go.float64 size / Go.Seconds (SimpleClient.uploadTime n)
             / Go.float64 1024 / Go.float64 1024)%float /\
        urls = [pingURL; downloadURL; String.append server "/upload"]
    | (SimpleClient.OutOfMemory, urls) =>
        SimpleClient.get n downloadURL <> None /\
        0 <= size <= Go.maxAlloc /\
        SimpleClient.memory n < size /\
        urls = [pingURL; downloadURL]
    | (SimpleClient.Panicked, urls) =>
        (SimpleClient.get n downloadURL = None \/ size < 0 \/ Go.maxAlloc < size \/
         (size <= SimpleClient.memory n /\ SimpleClient.newRequestOk n = false)) /\
        urls = [pingURL; downloadURL]
    end.
Proof.
  intros server size n pingURL downloadURL.
  unfold SimpleClient.main. fold pingURL. fold downloadURL.
  destruct (SimpleClient.get n downloadURL) as [resp |]; [| split; [left|]; reflexivity].
  unfold Http.Copy_Discard, Go.make.
  destruct (Z.ltb_spec size 0); cbn [orb].
  { split; [right; left; assumption | reflexivity]. }
  destruct (Z.ltb_spec Go.maxAlloc size).
  { split; [right; right; left; assumption | reflexivity]. }
  destruct (Z.ltb_spec (SimpleClient.memory n) size).
  { split; [discriminate|]. repeat split; lia. }
  destruct (SimpleClient.newRequestOk n) eqn:Hn.
  - split; [exists resp; split; reflexivity|]. repeat split; lia.
  - split; [right; right; right; split; [assumption | reflexivity] | reflexivity].
Qed.

End OtherClients.

(* ================================================================== *)
(** * The bytes of a download *)
(* ================================================================== *)

(** The expected writes, laid end to end, are the payload chunk repeated
    and cut off at [r] bytes. *)
Lemma concat_chunksOf (chunk : list byte) (r : Z) :
  chunk <> [] -> 0 <= r ->
  List.concat (chunksOf chunk r) =
  firstn (Z.to_nat r)
    (List.concat (repeat chunk (Z.to_nat (r / Go.len chunk) + 1))).
Proof.
  intros Hc Hr. pose proof (chunk_pos chunk Hc) as Hp.
  pose proof (Z.div_mod r (Go.len chunk) ltac:(lia)) as E.
  pose proof (Z.mod_pos_bound r (Go.len chunk) Hp) as B.
  pose proof (Z.div_pos r (Go.len chunk) Hr Hp) as D.
  unfold chunksOf.
  set (q := Z.to_nat (r / Go.len chunk)).
  assert (Hq : Z.of_nat q = r / Go.len chunk) by (subst q; lia).
  assert (HL : List.length (List.concat (repeat chunk q)) = (q * List.length chunk)%nat)
    by apply length_concat_repeat.
  assert (Hn : Z.to_nat r =
               (List.length (List.concat (repeat chunk q)) +
                Z.to_nat (r mod Go.len chunk))%nat).
  { rewrite HL. unfold Go.len in *. nia. }
  rewrite repeat_app, !concat_app. cbn [repeat List.concat]. rewrite app_nil_r.
  rewrite Hn, firstn_app, firstn_all2 by lia.
  replace (List.length (List.concat (repeat chunk q)) + Z.to_nat (r mod Go.len chunk)
           - List.length (List.concat (repeat chunk q)))%nat
    with (Z.to_nat (r mod Go.len chunk)) by lia.
  f_equal. destruct (Z.eqb_spec (r mod Go.len chunk) 0) as [Hz | Hnz].
  - rewrite Hz. reflexivity.
  - cbn [List.concat]. rewrite app_nil_r. reflexivity.
Qed.

Lemma concat_repeat_zeros (c k : nat) :
  List.concat (repeat (repeat Byte.x00 c) k) = repeat Byte.x00 (k * c).
Proof.
  induction k as [| k IH]; [reflexivity|].
  cbn [repeat List.concat]. rewrite IH, <- repeat_app. reflexivity.
Qed.

Lemma firstn_repeat_zeros (n m : nat) :
  (n <= m)%nat -> firstn n (repeat Byte.x00 m) = repeat Byte.x00 n.
Proof.
  revert m. induction n as [| n IH]; intros m H; [reflexivity|].
  destruct m as [| m]; [lia|]. cbn [repeat firstn]. rewrite IH by lia. reflexivity.
Qed.

(** X17.  The body of a complete download is the payload chunk repeated
    as often as needed and cut off at the requested size, in both
    backends. *)
Theorem download_body_repeats_payload :
  forall (chunk : list byte) (dflt : Z) (q : Http.Values) (size : Z) (fuel : nat),
    chunk <> [] ->
    Go.Atoi (Http.Get q "size") = Some size ->
    0 < size ->
    (Z.to_nat size < fuel)%nat ->
    exists w,
      Backend.downloadHandler {| Backend.payloadChunk := chunk |}
        fuel (request q noBody) (Http.newWriter allOk) = Some w /\
      Metrics.downloadHandler
        {| Metrics.payloadChunk := chunk; Metrics.defaultDownloadSize := dflt |}
        fuel (request q noBody) (Http.newWriter allOk) = Some (Returns w) /\
      Http.bodyBytes w =
      firstn (Z.to_nat size)
        (List.concat (repeat chunk (Z.to_nat (size / Go.len chunk) + 1))).
Proof.
  intros chunk dflt q size fuel Hc Hp Hs Hf.
  pose proof (Atoi_nonempty _ _ Hp) as Hne.
  assert (Hle : (size <=? 0) = false) by (apply Z.leb_gt; exact Hs).
  destruct (serve_exact chunk size fuel Hc Hs Hf) as (w & E & _ & _ & W & _).
  exists w. split; [| split].
  - unfold Backend.downloadHandler. simpl. rewrite Hne, Hp, Hle. exact E.
  - unfold Metrics.downloadHandler. simpl. rewrite Hne, Hp, Hle.
    apply metrics_serve; [exact E | lia].
  - unfold Http.bodyBytes. rewrite W. apply concat_chunksOf; [exact Hc | lia].
Qed.

Lemma download_body_repeats_payload_witness :
  exists w,
    Backend.downloadHandler {| Backend.payloadChunk := [Byte.x01; Byte.x02; Byte.x03] |}
      8 (request [("size", "7")] noBody) (Http.newWriter allOk) = Some w /\
    Metrics.downloadHandler
      {| Metrics.payloadChunk := [Byte.x01; Byte.x02; Byte.x03];
         Metrics.defaultDownloadSize := 1 |}
      8 (request [("size", "7")] noBody) (Http.newWriter allOk) = Some (Returns w) /\
    Http.bodyBytes w =
    firstn (Z.to_nat 7)
      (List.concat (repeat [Byte.x01; Byte.x02; Byte.x03]
                      (Z.to_nat (7 / Go.len [Byte.x01; Byte.x02; Byte.x03]) + 1))).
Proof.
  apply (download_body_repeats_payload [Byte.x01; Byte.x02; Byte.x03] 1 [("size", "7")] 7 8).
  - discriminate.
  - reflexivity.
  - lia.
  - simpl; lia.
Defined.

(** X18.  A backend started without [-random], with a positive chunk
    size the allocator accepts and the system grants, and a port it can
    open, answers every complete download of a valid size with that
    many zero bytes. *)
Theorem download_is_zero_filled :
  forall (f : Flags) (rnd : nat -> byte) (bind : Z -> bool) (mem : Z)
         (q : Http.Values) (size : Z) (fuel : nat),
    random f = false ->
    0 < chunk_size f <= Go.maxAlloc ->
    chunk_size f <= mem ->
    bind (port f) = true ->
    Go.Atoi (Http.Get q "size") = Some size ->
    0 < size ->
    (Z.to_nat size < fuel)%nat ->
    exists s1 s2 w,
      Backend.main f rnd bind mem = Serving s1 /\
      Metrics.main f rnd bind mem = Serving s2 /\
      Backend.downloadHandler s1 fuel (request q noBody) (Http.newWriter allOk) = Some w /\
      Metrics.downloadHandler s2 fuel (request q noBody) (Http.newWriter allOk) = Some (Returns w) /\
      Http.bodyBytes w = repeat Byte.x00 (Z.to_nat size).
Proof.
  intros f rnd bind mem q size fuel Hr Hcs Hm Hb Hp Hs Hf.
  set (chunk := repeat Byte.x00 (Z.to_nat (chunk_size f))).
  assert (Hmk : Go.make mem (chunk_size f) = Go.Slice chunk).
  { apply make_cases; lia. }
  assert (Hc : chunk <> []).
  { subst chunk. destruct (Z.to_nat (chunk_size f)) eqn:E; [lia | discriminate]. }
  assert (Hlen : Go.len chunk = chunk_size f).
  { subst chunk. unfold Go.len. rewrite repeat_length. lia. }
  pose proof (Atoi_nonempty _ _ Hp) as Hne.
  assert (Hle : (size <=? 0) = false) by (apply Z.leb_gt; exact Hs).
  destruct (serve_exact chunk size fuel Hc Hs Hf) as (w & E & _ & _ & W & _).
  exists {| Backend.payloadChunk := chunk |},
         {| Metrics.payloadChunk := chunk; Metrics.defaultDownloadSize := default_size f |}, w.
  split; [| split; [| split; [| split]]].
  - unfold Backend.main. rewrite Hmk, Hr, Hb. reflexivity.
  - unfold Metrics.main. rewrite Hmk, Hr, Hb. reflexivity.
  - unfold Backend.downloadHandler. simpl. rewrite Hne, Hp, Hle. exact E.
  - unfold Metrics.downloadHandler. simpl. rewrite Hne, Hp, Hle.
    apply metrics_serve; [exact E | lia].
  - unfold Http.bodyBytes. rewrite W, concat_chunksOf by (assumption || lia).
    rewrite Hlen. subst chunk. rewrite concat_repeat_zeros.
    apply firstn_repeat_zeros.
    pose proof (Z.div_mod size (chunk_size f) ltac:(lia)) as DM.
    pose proof (Z.mod_pos_bound size (chunk_size f) ltac:(lia)) as MB.
    pose proof (Z.div_pos size (chunk_size f) ltac:(lia) ltac:(lia)) as DP.
    nia.
Qed.

Lemma download_is_zero_filled_witness :
  exists s1 s2 w,
    Backend.main {| port := 8080; chunk_size := 4; random := false; default_size := 9 |}
      (fun _ => Byte.xff) (fun _ => true) (2 ^ 30) = Serving s1 /\
    Metrics.main {| port := 8080; chunk_size := 4; random := false; default_size := 9 |}
      (fun _ => Byte.xff) (fun _ => true) (2 ^ 30) = Serving s2 /\
    Backend.downloadHandler s1 7 (request [("size", "6")] noBody) (Http.newWriter allOk) = Some w /\
    Metrics.downloadHandler s2 7 (request [("size", "6")] noBody) (Http.newWriter allOk) = Some (Returns w) /\
    Http.bodyBytes w = repeat Byte.x00 (Z.to_nat 6).
Proof.
  apply (download_is_zero_filled
           {| port := 8080; chunk_size := 4; random := false; default_size := 9 |}
           (fun _ => Byte.xff) (fun _ => true) (2 ^ 30) [("size", "6")] 6 7).
  - reflexivity.
  - simpl. unfold Go.maxAlloc. lia.
  - simpl. lia.
  - reflexivity.
  - reflexivity.
  - lia.
  - simpl; lia.
Defined.
